(** * Bioprocess simulation scripts: a shallow embedding

    The Python sources drive their processes with an external discrete-event
    library.  The process bodies are embedded here as functions on an
    explicit world state, one process at a time; the library's Container,
    Resource and timeout primitives are modelled separately (module
    [Kernel]).

    Numbers: Python floats are idealised as exact rationals ([Q]); numeric
    results are stated up to [Qeq] ([==]).  Rounding is not modelled. *)

From Stdlib Require Import QArith Qminmax Lia Lqa.
From stdpp Require Import gmap strings list.

Local Open Scope Q_scope.

(** ** Numeric helpers *)

(** Python's [a < b] on numbers. *)
Definition Qltb (a b : Q) : bool := negb (Qle_bool b a).

Lemma Qle_bool_false (a b : Q) : b < a -> Qle_bool a b = false.
Proof.
  intros H. destruct (Qle_bool a b) eqn:E; [|reflexivity].
  apply Qle_bool_iff in E. exfalso. exact (Qlt_not_le _ _ H E).
Qed.

Lemma Qle_bool_true (a b : Q) : a <= b -> Qle_bool a b = true.
Proof. intros H. apply Qle_bool_iff. exact H. Qed.

Lemma Qltb_true (a b : Q) : a < b -> Qltb a b = true.
Proof. intros H. unfold Qltb. rewrite (Qle_bool_false b a H). reflexivity. Qed.

Lemma Qltb_false (a b : Q) : b <= a -> Qltb a b = false.
Proof. intros H. unfold Qltb. rewrite (Qle_bool_true b a H). reflexivity. Qed.

Lemma Qltb_spec (a b : Q) :
  (Qltb a b = true /\ a < b) \/ (Qltb a b = false /\ b <= a).
Proof.
  destruct (Qlt_le_dec a b) as [H|H].
  - left. split; [apply Qltb_true|]; assumption.
  - right. split; [apply Qltb_false|]; assumption.
Qed.


(** [collections.Counter.__getitem__] and the [d.get(k, 0)] idiom: an absent
    key reads as zero (and is not inserted). *)
Definition counter_get (m : gmap string Q) (k : string) : Q :=
  default 0 (m !! k).

(** ** The kernel primitives used by the scripts *)
Module Kernel.

(** Errors the modelled code can raise: the kernel's error kinds and the
    Python exceptions of the calls that reach it. *)
Inductive exn : Type :=
| InvalidDelay       (* a timeout with a negative delay *)
| CapacityExceeded   (* a request larger than the Container's capacity *)
| ValueError         (* a Container request whose amount is not positive *)
| TypeError.         (* a timeout whose delay is [None] *)

(** Outcome of a kernel request made by the single process under study. *)
Inductive request (A : Type) : Type :=
| Granted (a : A)      (* the request succeeds and the process resumes *)
| Rejected (e : exn)   (* the call itself raises *)
| Suspended.           (* queued: the condition does not hold yet *)
Arguments Granted {A} a.
Arguments Rejected {A} e.
Arguments Suspended {A}.

(** Modelled from the spec: the Container primitive of the external
    simulation library, a level bounded by a capacity fixed at creation.
    Both operations take an amount > 0 and are all-or-nothing: [put]
    succeeds only when [level + amount <= capacity], [get] only when
    [level >= amount], and the caller is suspended otherwise; an amount
    above the capacity fails with [CapacityExceeded] instead of blocking
    forever.  The queue of the other processes' requests is not modelled. *)
Record Container : Type := mkContainer {
  capacity : Q;
  level : Q
}.

Definition put (c : Container) (amount : Q) : request Container :=
  if Qle_bool amount 0 then Rejected ValueError
  else if Qltb (capacity c) amount then Rejected CapacityExceeded
  else if Qle_bool (level c + amount) (capacity c)
       then Granted (mkContainer (capacity c) (level c + amount))
       else Suspended.

Definition get (c : Container) (amount : Q) : request Container :=
  if Qle_bool amount 0 then Rejected ValueError
  else if Qltb (capacity c) amount then Rejected CapacityExceeded
  else if Qle_bool amount (level c)
       then Granted (mkContainer (capacity c) (level c - amount))
       else Suspended.

(** Modelled from the spec: the Resource pool of the external simulation
    library: a fixed capacity ([slots]), the number of units in use and the
    number of queued acquirers.  [acquire] is granted while
    [in_use < capacity] and increments [in_use]; [release] decrements it.
    Handles, and waking the other processes of the queue, are not modelled. *)
Record Resource : Type := mkResource {
  slots : nat;
  in_use : nat;
  waiting : nat
}.

Definition acquire (r : Resource) : request Resource :=
  if (in_use r <? slots r)%nat
  then Granted (mkResource (slots r) (S (in_use r)) (waiting r))
  else Suspended.

Definition enqueue (r : Resource) : Resource :=
  mkResource (slots r) (in_use r) (S (waiting r)).

Definition release (r : Resource) : Resource :=
  mkResource (slots r) (pred (in_use r)) (waiting r).

(** Modelled from the spec: a timeout of [delay] resumes the process at
    [now + delay]; a negative delay fails with [InvalidDelay]. *)
Definition wake_time (now delay : Q) : request Q :=
  if Qltb delay 0 then Rejected InvalidDelay else Granted (now + delay).

End Kernel.

(** ** test_mixing2.py: the mass-balance tank *)
Module Mixing.
Import Kernel.

Record Liquid : Type := mkLiquid {
  volume : Q;
  contents : gmap string Q
}.

Record AdvancedTank : Type := mkTank {
  name : string;
  op_mode : string;              (* state["op_mode"] *)
  container : Container;
  inventory : gmap string Q      (* _inventory, a Counter *)
}.

(** [AdvancedTank.__init__] *)
Definition new_tank (nm : string) (cap : Q) : AdvancedTank :=
  mkTank nm "Idle" (mkContainer cap 0) ∅.

Definition current_volume (t : AdvancedTank) : Q := level (container t).

(** [get_concentration] *)
Definition get_concentration (t : AdvancedTank) (substance : string) : Q :=
  if Qeq_bool (current_volume t) 0 then 0
  else counter_get (inventory t) substance / current_volume t.

(** The loop of [put_liquid]: [self._inventory[substance] += mass]. *)
Definition add_contents (inv liquid_contents : gmap string Q) : gmap string Q :=
  map_fold (fun substance mass acc =>
              <[substance := counter_get acc substance + mass]> acc)
           inv liquid_contents.

(** [put_liquid] *)
Definition put_liquid (t : AdvancedTank) (liquid : Liquid)
  : request AdvancedTank :=
  match put (container t) (volume liquid) with
  | Granted c' =>
      Granted (mkTank (name t) "Filling" c'
                      (add_contents (inventory t) (contents liquid)))
  | Rejected e => Rejected e
  | Suspended => Suspended
  end.

(** The loop of [get_liquid]: it walks the inventory once, fills
    [extracted_contents] and debits the inventory in place. *)
Definition extract_contents (inv : gmap string Q) (fraction : Q)
  : gmap string Q * gmap string Q :=
  map_fold (fun substance total_mass (acc : gmap string Q * gmap string Q) =>
              let mass_removed := total_mass * fraction in
              (<[substance := mass_removed]> (fst acc),
               <[substance := counter_get (snd acc) substance - mass_removed]>
                 (snd acc)))
           (∅, inv) inv.

(** [get_liquid]: the tank after the call and the returned Liquid. *)
Definition get_liquid (t : AdvancedTank) (volume_needed : Q)
  : request (AdvancedTank * Liquid) :=
  match get (container t) volume_needed with
  | Granted c' =>
      let total_vol_before := level c' + volume_needed in
      let fraction := volume_needed / total_vol_before in
      let '(extracted_contents, inv') :=
        extract_contents (inventory t) fraction in
      Granted (mkTank (name t) "Emptying" c' inv',
               mkLiquid volume_needed extracted_contents)
  | Rejected e => Rejected e
  | Suspended => Suspended
  end.

(** A process that performs a sequence of tank operations, one after the
    other (as [lab_process] does). *)
Inductive op : Type :=
| PutLiquid (liquid : Liquid)
| GetLiquid (volume_needed : Q).

Record run : Type := mkRun {
  tank : AdvancedTank;
  added : list Liquid;        (* liquids accepted by put_liquid *)
  extracted : list Liquid     (* liquids returned by get_liquid *)
}.

Definition start (t : AdvancedTank) : run := mkRun t [] [].

(** The process stops at the first operation that raises or that stays
    suspended; the operations after it never run. *)
Fixpoint run_ops (ops : list op) (r : run) : run :=
  match ops with
  | [] => r
  | PutLiquid liquid :: ops' =>
      match put_liquid (tank r) liquid with
      | Granted t' => run_ops ops' (mkRun t' (liquid :: added r) (extracted r))
      | _ => r
      end
  | GetLiquid v :: ops' =>
      match get_liquid (tank r) v with
      | Granted (t', out) =>
          run_ops ops' (mkRun t' (added r) (out :: extracted r))
      | _ => r
      end
  end.

Definition mass_of (substance : string) (l : Liquid) : Q :=
  counter_get (contents l) substance.

Fixpoint total_mass (substance : string) (ls : list Liquid) : Q :=
  match ls with
  | [] => 0
  | l :: ls' => mass_of substance l + total_mass substance ls'
  end.

(** The script's scenario: 10 L of concentrate, 10 L of water, a 2 L sample. *)
Definition concentrate : Liquid :=
  mkLiquid 10 (<["Water" := 9000]> (<["Glucose" := 1000]> {["Salt" := 100]})).
Definition water : Liquid := mkLiquid 10 {["Water" := 10000]}.
Definition lab_process : list op :=
  [PutLiquid concentrate; PutLiquid water; GetLiquid 2].

(** *** Properties of the tank *)

Lemma counter_get_Some (m : gmap string Q) k x :
  m !! k = Some x -> counter_get m k = x.
Proof. unfold counter_get. intros ->. reflexivity. Qed.

Lemma counter_get_None (m : gmap string Q) k :
  m !! k = None -> counter_get m k = 0.
Proof. unfold counter_get. intros ->. reflexivity. Qed.

(** What [put_liquid]'s loop leaves under each key. *)
Lemma add_contents_lookup (inv lc : gmap string Q) (s : string) :
  add_contents inv lc !! s =
  match lc !! s with
  | Some mass => Some (counter_get inv s + mass)
  | None => inv !! s
  end.
Proof.
  unfold add_contents. revert s.
  apply (map_fold_weak_ind
           (fun (r m : gmap string Q) => forall s,
              r !! s = match m !! s with
                       | Some mass => Some (counter_get inv s + mass)
                       | None => inv !! s
                       end)).
  - intros s. rewrite lookup_empty. reflexivity.
  - intros i x m r Hi IH s.
    destruct (decide (i = s)) as [->|Hne].
    + rewrite !lookup_insert_eq. unfold counter_get at 1.
      rewrite IH, Hi. reflexivity.
    + rewrite !lookup_insert_ne by assumption. apply IH.
Qed.

(** What [get_liquid]'s loop leaves under each key, in the extracted
    contents and in the debited inventory. *)
Lemma extract_fold_lookup (inv0 m : gmap string Q) (f : Q) (s : string) :
  let r := map_fold
             (fun substance total_mass (acc : gmap string Q * gmap string Q) =>
                let mass_removed := total_mass * f in
                (<[substance := mass_removed]> (fst acc),
                 <[substance := counter_get (snd acc) substance - mass_removed]>
                   (snd acc)))
             (∅, inv0) m in
  fst r !! s = (fun x => x * f) <$> (m !! s) /\
  snd r !! s = match m !! s with
               | Some x => Some (counter_get inv0 s - x * f)
               | None => inv0 !! s
               end.
Proof.
  cbv zeta. revert s.
  apply (map_fold_weak_ind
           (fun (r : gmap string Q * gmap string Q) (m : gmap string Q) =>
              forall s,
                fst r !! s = (fun x => x * f) <$> (m !! s) /\
                snd r !! s = match m !! s with
                             | Some x => Some (counter_get inv0 s - x * f)
                             | None => inv0 !! s
                             end)).
  - intros s. rewrite !lookup_empty. split; reflexivity.
  - intros i x m' r Hi IH s. cbn [fst snd].
    destruct (decide (i = s)) as [->|Hne].
    + rewrite !lookup_insert_eq. split; [reflexivity|].
      unfold counter_get at 1.
      destruct (IH s) as [_ ->]. rewrite Hi. reflexivity.
    + rewrite !lookup_insert_ne by assumption. apply IH.
Qed.

Lemma extract_contents_lookup (inv : gmap string Q) (f : Q) (s : string) :
  fst (extract_contents inv f) !! s = (fun x => x * f) <$> (inv !! s) /\
  snd (extract_contents inv f) !! s = (fun x => x - x * f) <$> (inv !! s).
Proof.
  unfold extract_contents.
  destruct (extract_fold_lookup inv inv f s) as [H1 H2].
  split; [exact H1|]. etransitivity; [exact H2|].
  destruct (inv !! s) as [x|] eqn:E; [|reflexivity].
  cbn. rewrite (counter_get_Some _ _ _ E). reflexivity.
Qed.

(** One successful [put_liquid] adds the liquid's mass of every substance. *)
Lemma put_liquid_mass t liquid t' (s : string) :
  put_liquid t liquid = Granted t' ->
  counter_get (inventory t') s == counter_get (inventory t) s + mass_of s liquid.
Proof.
  unfold put_liquid. destruct (put (container t) (volume liquid)); try discriminate.
  intros [= <-]. cbn. unfold counter_get at 1. rewrite add_contents_lookup.
  unfold mass_of, counter_get.
  destruct (contents liquid !! s); cbn; ring.
Qed.

(** One successful [get_liquid] splits every substance between the tank
    and the returned Liquid. *)
Lemma get_liquid_mass t v t' out (s : string) :
  get_liquid t v = Granted (t', out) ->
  counter_get (inventory t') s + mass_of s out == counter_get (inventory t) s.
Proof.
  unfold get_liquid. destruct (get (container t) v) as [c'| |]; try discriminate.
  cbv zeta.
  pose proof (extract_contents_lookup (inventory t) (v / (level c' + v)) s)
    as [H1 H2].
  destruct (extract_contents (inventory t) (v / (level c' + v))) as [ext inv'].
  intros [= <- <-]. cbn in *. unfold mass_of, counter_get. cbn.
  rewrite H1, H2. destruct (inventory t !! s); cbn; ring.
Qed.

Lemma run_ops_balance ops : forall r (s : string),
  counter_get (inventory (tank (run_ops ops r))) s
    + total_mass s (extracted (run_ops ops r))
    + total_mass s (added r)
  == counter_get (inventory (tank r)) s
    + total_mass s (extracted r)
    + total_mass s (added (run_ops ops r)).
Proof.
  induction ops as [|o ops IH]; intros r s; [reflexivity|].
  destruct o as [liquid|v]; cbn [run_ops].
  - destruct (put_liquid (tank r) liquid) as [t'| |] eqn:E; try reflexivity.
    specialize (IH (mkRun t' (liquid :: added r) (extracted r)) s).
    cbn [tank added extracted total_mass] in IH.
    pose proof (put_liquid_mass _ _ _ s E) as H. lra.
  - destruct (get_liquid (tank r) v) as [[t' out]| |] eqn:E; try reflexivity.
    specialize (IH (mkRun t' (added r) (out :: extracted r)) s).
    cbn [tank added extracted total_mass] in IH.
    pose proof (get_liquid_mass _ _ _ _ s E) as H. lra.
Qed.

(** C1. Proportional extraction: from a tank holding V > 0 litres (within
    its capacity, as every Container is) and M grams of a substance,
    [get_liquid v] with 0 < v <= V is granted, returns a Liquid of volume v
    carrying (v/V) * M grams of the substance, debits that mass from the
    inventory and lowers the level to V - v. *)
Theorem get_liquid_proportional (t : AdvancedTank) (s : string) (M v : Q) :
  0 < current_volume t ->
  current_volume t <= capacity (container t) ->
  inventory t !! s = Some M ->
  0 < v -> v <= current_volume t ->
  exists t' out,
    get_liquid t v = Granted (t', out) /\
    volume out = v /\
    (exists m, contents out !! s = Some m /\
               m == (v / current_volume t) * M) /\
    (exists r, inventory t' !! s = Some r /\
               r == M - (v / current_volume t) * M) /\
    current_volume t' == current_volume t - v.
Proof.
  unfold current_volume. intros HV Hcap HM Hv HvV.
  unfold get_liquid, get.
  rewrite (Qle_bool_false v 0 Hv), (Qle_bool_true _ _ HvV).
  rewrite (Qltb_false (capacity (container t)) v)
    by (apply Qle_trans with (level (container t)); assumption).
  cbv zeta. cbn [level].
  set (f := v / (level (container t) - v + v)).
  pose proof (extract_contents_lookup (inventory t) f s) as [H1 H2].
  destruct (extract_contents (inventory t) f) as [ext inv'].
  cbn [fst snd] in H1, H2. rewrite HM in H1, H2. cbn in H1, H2.
  assert (Hf : f == v / level (container t)).
  { unfold f. apply Qdiv_comp; [reflexivity | ring]. }
  eexists _, _. split; [reflexivity|]. cbn.
  split; [reflexivity|]. split; [|split].
  - exists (M * f). split; [exact H1|]. rewrite Hf. ring.
  - exists (M - M * f). split; [exact H2|]. rewrite Hf. ring.
  - reflexivity.
Qed.

Definition sugar_tank : AdvancedTank :=
  mkTank "Bioreactor" "Filling" (mkContainer 100 20)
         (<["Water" := 19000]> {["Glucose" := 1000]}).

Lemma get_liquid_proportional_witness :
  exists t' out,
    get_liquid sugar_tank 2 = Granted (t', out) /\
    volume out = 2 /\
    (exists m, contents out !! "Glucose" = Some m /\
               m == (2 / current_volume sugar_tank) * 1000) /\
    (exists r, inventory t' !! "Glucose" = Some r /\
               r == 1000 - (2 / current_volume sugar_tank) * 1000) /\
    current_volume t' == current_volume sugar_tank - 2.
Proof.
  apply (get_liquid_proportional sugar_tank "Glucose" 1000 2);
    vm_compute; reflexivity || discriminate.
Defined.

(** C2. Mass conservation: after any sequence of [put_liquid] and
    [get_liquid] calls, started from any tank, the mass of every substance
    left in the inventory plus the mass carried away by the returned
    Liquids equals the mass present at the start plus the mass of the
    Liquids that were put in. *)
Theorem mass_conservation (t0 : AdvancedTank) (ops : list op) (s : string) :
  counter_get (inventory (tank (run_ops ops (start t0)))) s
    + total_mass s (extracted (run_ops ops (start t0)))
  == counter_get (inventory t0) s
    + total_mass s (added (run_ops ops (start t0))).
Proof.
  pose proof (run_ops_balance ops (start t0) s) as H.
  cbn [start tank added extracted total_mass] in H. lra.
Qed.

(** C10. A substance that is absent from the inventory has concentration
    zero, whatever the level of the tank. *)
Theorem get_concentration_absent (t : AdvancedTank) (s : string) :
  inventory t !! s = None ->
  get_concentration t s == 0.
Proof.
  intros H. unfold get_concentration.
  destruct (Qeq_bool (current_volume t) 0); [reflexivity|].
  rewrite (counter_get_None _ _ H). unfold Qdiv. ring.
Qed.

Lemma get_concentration_absent_witness :
  0 < current_volume sugar_tank /\ get_concentration sugar_tank "Salt" == 0.
Proof.
  split; [reflexivity|].
  apply (get_concentration_absent sugar_tank "Salt"). reflexivity.
Defined.

(** A substance that no accepted Liquid carried never enters the inventory. *)
Definition never_adds (s : string) (o : op) : Prop :=
  match o with
  | PutLiquid liquid => contents liquid !! s = None
  | GetLiquid _ => True
  end.

Lemma never_added_absent (ops : list op) : forall (r : run) (s : string),
  inventory (tank r) !! s = None ->
  Forall (never_adds s) ops ->
  inventory (tank (run_ops ops r)) !! s = None.
Proof.
  induction ops as [|o ops IH]; intros r s Hr Hops; [exact Hr|].
  inversion Hops as [|o' ops' Ho Hrest]; subst.
  destruct o as [liquid|v]; cbn [run_ops].
  - destruct (put_liquid (tank r) liquid) as [t'| |] eqn:E; try exact Hr.
    apply IH; [|exact Hrest]. cbn [tank].
    unfold put_liquid in E.
    destruct (put (container (tank r)) (volume liquid)); try discriminate.
    injection E as <-. cbn [inventory].
    rewrite add_contents_lookup. cbn in Ho. rewrite Ho. exact Hr.
  - destruct (get_liquid (tank r) v) as [[t' out]| |] eqn:E; try exact Hr.
    apply IH; [|exact Hrest]. cbn [tank].
    unfold get_liquid in E.
    destruct (get (container (tank r)) v) as [c'| |]; try discriminate.
    cbv zeta in E.
    pose proof (extract_contents_lookup (inventory (tank r)) (v / (level c' + v)) s)
      as [_ H2].
    destruct (extract_contents (inventory (tank r)) (v / (level c' + v)))
      as [ext inv'].
    injection E as <- _. cbn [inventory]. cbn [snd] in H2.
    rewrite H2, Hr. reflexivity.
Qed.

(** The concentration of such a substance is zero after any run. *)
Lemma never_added_concentration (nm : string) (cap : Q) (ops : list op)
    (s : string) :
  Forall (never_adds s) ops ->
  get_concentration (tank (run_ops ops (start (new_tank nm cap)))) s == 0.
Proof.
  intros H. unfold get_concentration.
  destruct (Qeq_bool _ 0); [reflexivity|].
  rewrite counter_get_None by (apply never_added_absent; [reflexivity|exact H]).
  unfold Qdiv. ring.
Qed.

(** The script's own check: 2 L out of 20 L carry 100 g of the 1000 g of
    glucose, and 900 g stay in the tank. *)
Example lab_process_sample :
  let r := run_ops lab_process (start (new_tank "Bioreactor" 100)) in
  (mass_of "Glucose" <$> extracted r) = [1000 * (2 / (18 + 2))] /\
  1000 * (2 / (18 + 2)) == 100 /\
  counter_get (inventory (tank r)) "Glucose" == 900 /\
  current_volume (tank r) == 18.
Proof.
  cbv zeta. split; [vm_compute; reflexivity|].
  split; [reflexivity|]. split; vm_compute; reflexivity.
Qed.

End Mixing.

(** ** engine.py, schema.py, units.py, main.py: the batch recipe *)
Module Units.
Import Kernel.

(** *** schema.py *)
Record ResourceConfig : Type := mkResourceConfig {
  bioreactor_volume : Q;
  chromatography_skids : Z
}.

Record StepConfig : Type := mkStepConfig {
  name : string;
  duration_hours : option Q;
  consumables : gmap string Q;
  input_batch : option string
}.

Record FermentationConfig : Type := mkFermentationConfig {
  fermentation_step :> StepConfig;
  contamination_risk : Q;
  growth_rate : Q
}.

Record ChromatographyConfig : Type := mkChromatographyConfig {
  chromatography_step :> StepConfig;
  cycle_time_hours : Q;
  cycles : Z;
  yield_step : Q
}.

(** [StepUnion]: the [type] tag of a step is the constructor. *)
Inductive StepUnion : Type :=
| FermentationStep (config : FermentationConfig)
| ChromatographyStep (config : ChromatographyConfig)
| MediaPrepStep (config : StepConfig).

Record RecipeConfig : Type := mkRecipeConfig {
  resources : ResourceConfig;
  steps : list StepUnion
}.

(** *** engine.py *)

(** Entries of [Batch.history].  The source formats them into strings;
    the model keeps the step name and the number that is formatted. *)
Inductive note : Type :=
| FailedAt (step : string)
| CompletedProduced (step : string) (produced_mass : Q)
| CompletedYield (step : string) (percent : Q).

Record Batch : Type := mkBatch {
  id : string;
  volume_liters : Q;
  product_mass_grams : Q;
  contaminants_grams : Q;
  history : list note
}.

Record MaterialsManager : Type := mkMaterials {
  inventory : gmap string Q;
  waste : gmap string Q;
  product_produced : Q
}.

(** [MaterialsManager.reset] *)
Definition reset : MaterialsManager := mkMaterials ∅ ∅ 0.

(** [d[k] += amount] after [if k not in d: d[k] = 0.0]. *)
Definition accumulate (d : gmap string Q) (k : string) (amount : Q)
  : gmap string Q :=
  let d1 := match d !! k with
            | None => <[k := 0]> d
            | Some _ => d
            end in
  <[k := counter_get d1 k + amount]> d1.

Definition consume (m : MaterialsManager) (material : string) (amount : Q)
  : MaterialsManager :=
  mkMaterials (accumulate (inventory m) material amount) (waste m)
              (product_produced m).

Definition add_waste (m : MaterialsManager) (waste_type : string) (amount : Q)
  : MaterialsManager :=
  mkMaterials (inventory m) (accumulate (waste m) waste_type amount)
              (product_produced m).

Definition add_product (m : MaterialsManager) (amount : Q) : MaterialsManager :=
  mkMaterials (inventory m) (waste m) (product_produced m + amount).

(** *** The world a recipe process runs in *)

(** Lines printed by the unit operations and by [process_flow].  The model
    keeps each line with the time at which it is printed. *)
Inductive line : Type :=
| StartingMediaPrep (step : string)
| FinishedMediaPrep (step : string)
| RequestingBioreactor (step : string)
| StartedFermentation (step : string)
| FailureContamination (step : string)
| FinishedFermentation (step : string) (produced_mass : Q)
| RequestingSkid (step : string)
| StartedChromatography (step : string)
| FinishedChromatography (step : string) (percent final_mass : Q)
| BatchStopped.

(** The two pools [run_simulation] creates. *)
Inductive pool : Type := Bioreactor | Skids.

Record World : Type := mkWorld {
  now : Q;                          (* env.now *)
  wakeups : list Q;                 (* times at which a timeout fired *)
  printed : list (Q * line);        (* output, oldest first *)
  materials : MaterialsManager;     (* the shared ledger *)
  batch : Batch;
  bioreactor : Resource;
  skids : Resource;
  drawn : nat                       (* calls made to random.random() *)
}.

Definition resource_of (p : pool) (w : World) : Resource :=
  match p with Bioreactor => bioreactor w | Skids => skids w end.

Definition set_now (t : Q) (w : World) : World :=
  mkWorld t (wakeups w ++ [t]) (printed w) (materials w) (batch w)
          (bioreactor w) (skids w) (drawn w).
Definition set_printed (o : list (Q * line)) (w : World) : World :=
  mkWorld (now w) (wakeups w) o (materials w) (batch w)
          (bioreactor w) (skids w) (drawn w).
Definition set_materials (m : MaterialsManager) (w : World) : World :=
  mkWorld (now w) (wakeups w) (printed w) m (batch w)
          (bioreactor w) (skids w) (drawn w).
Definition set_batch (b : Batch) (w : World) : World :=
  mkWorld (now w) (wakeups w) (printed w) (materials w) b
          (bioreactor w) (skids w) (drawn w).
Definition set_resource (p : pool) (r : Resource) (w : World) : World :=
  match p with
  | Bioreactor => mkWorld (now w) (wakeups w) (printed w) (materials w)
                          (batch w) r (skids w) (drawn w)
  | Skids => mkWorld (now w) (wakeups w) (printed w) (materials w)
                     (batch w) (bioreactor w) r (drawn w)
  end.
Definition set_drawn (n : nat) (w : World) : World :=
  mkWorld (now w) (wakeups w) (printed w) (materials w) (batch w)
          (bioreactor w) (skids w) n.

(** *** Generator bodies as state transformers *)

(** How a piece of a generator body ends. *)
Inductive result (A : Type) : Type :=
| Normal (a : A) (w : World)     (* falls through to the next statement *)
| Returned (w : World)           (* executed [return] *)
| Raised (e : exn) (w : World)   (* an exception propagates *)
| Waiting (w : World).           (* suspended on a request never granted *)
Arguments Normal {A} a w.
Arguments Returned {A} w.
Arguments Raised {A} e w.
Arguments Waiting {A} w.

Definition world_of {A} (r : result A) : World :=
  match r with
  | Normal _ w | Returned w | Raised _ w | Waiting w => w
  end.

Definition M (A : Type) : Type := World -> result A.

Definition ret {A} (a : A) : M A := fun w => Normal a w.

Definition bind {A B} (c : M A) (k : A -> M B) : M B :=
  fun w => match c w with
           | Normal a w' => k a w'
           | Returned w' => Returned w'
           | Raised e w' => Raised e w'
           | Waiting w' => Waiting w'
           end.

Declare Scope proc_scope.
Delimit Scope proc_scope with proc.
Bind Scope proc_scope with M.
Notation "x <- c ;; k" := (bind c (fun x => k))
  (at level 100, c at level 99, k at level 200, right associativity)
  : proc_scope.
Notation "c ;; k" := (bind c (fun _ => k))
  (at level 100, k at level 200, right associativity) : proc_scope.
Local Open Scope proc_scope.

Definition get_world : M World := fun w => Normal w w.
Definition modify (f : World -> World) : M unit := fun w => Normal tt (f w).
Definition raise {A} (e : exn) : M A := fun w => Raised e w.
(** [return] *)
Definition return_ {A} : M A := fun w => Returned w.

(** Running a generator to its end with [yield from]: its [return] ends
    the callee only. *)
Definition call (body : M unit) : M unit :=
  fun w => match body w with
           | Returned w' => Normal tt w'
           | r => r
           end.

(** [print(f"[{self.env.now:.2f}] ...")] *)
Definition print (l : line) : M unit :=
  modify (fun w => set_printed (printed w ++ [(now w, l)]) w).

(** [yield self.env.timeout(delay)] *)
Definition timeout (delay : option Q) : M unit :=
  fun w => match delay with
           | None => Raised TypeError w
           | Some d => match wake_time (now w) d with
                       | Granted t => Normal tt (set_now t w)
                       | Rejected e => Raised e w
                       | Suspended => Waiting w
                       end
           end.

(** [with resource.request() as req: yield req; body]: the slot is given
    back when the block is left, however it is left. *)
Definition with_request (p : pool) (body : M unit) : M unit :=
  fun w => match acquire (resource_of p w) with
           | Granted r =>
               match body (set_resource p r w) with
               | Normal a w' =>
                   Normal a (set_resource p (release (resource_of p w')) w')
               | Returned w' =>
                   Returned (set_resource p (release (resource_of p w')) w')
               | Raised e w' =>
                   Raised e (set_resource p (release (resource_of p w')) w')
               | Waiting w' => Waiting w'
               end
           | Rejected e => Raised e w
           | Suspended => Waiting (set_resource p (enqueue (resource_of p w)) w)
           end.

(** [for material, amount in self.config.consumables.items():
       self.materials.consume(material, amount)] *)
Definition consume_all (cs : gmap string Q) : M unit :=
  modify (fun w => set_materials
                     (map_fold (fun material amount m => consume m material amount)
                               (materials w) cs) w).

(** [for i in range(n): body] *)
Fixpoint repeat_ (n : nat) (body : M unit) : M unit :=
  match n with
  | O => ret tt
  | S n' => body ;; repeat_ n' body
  end.

Definition is_zero (q : Q) : bool := Qeq_bool q 0.

(** Truthiness of an [Optional[float]]: [None] and [0] are false. *)
Definition truthy (d : option Q) : bool :=
  match d with
  | None => false
  | Some q => negb (is_zero q)
  end.

Section Run.
(** The values [random.random()] returns, in call order.  The source
    never seeds the generator: the sequence is an input of the run. *)
Variable random_source : nat -> Q.

Definition random_random : M Q :=
  fun w => Normal (random_source (drawn w)) (set_drawn (S (drawn w)) w).

(** *** units.py *)

(** [MediaPrep.run] *)
Definition MediaPrep_run (config : StepConfig) : M unit :=
  print (StartingMediaPrep (name config)) ;;
  consume_all (consumables config) ;;
  (if truthy (duration_hours config)
   then timeout (duration_hours config)
   else ret tt) ;;
  print (FinishedMediaPrep (name config)).

(** [Fermentation.run] *)
Definition Fermentation_run (config : FermentationConfig) (resource : pool)
  : M unit :=
  print (RequestingBioreactor (name config)) ;;
  with_request resource (
    print (StartedFermentation (name config)) ;;
    consume_all (consumables config) ;;
    timeout (duration_hours config) ;;
    r <- random_random ;;
    (if Qltb r (contamination_risk config) then
       print (FailureContamination (name config)) ;;
       modify (fun w => set_materials
                 (add_waste (materials w) "Contaminated Batch"
                            (volume_liters (batch w))) w) ;;
       modify (fun w => set_batch
                 (mkBatch (id (batch w)) 0 (product_mass_grams (batch w))
                          (contaminants_grams (batch w))
                          (history (batch w))) w) ;;
       modify (fun w => set_batch
                 (mkBatch (id (batch w)) (volume_liters (batch w)) 0
                          (contaminants_grams (batch w))
                          (history (batch w))) w) ;;
       modify (fun w => set_batch
                 (mkBatch (id (batch w)) (volume_liters (batch w))
                          (product_mass_grams (batch w))
                          (contaminants_grams (batch w) + 1000)
                          (history (batch w))) w) ;;
       modify (fun w => set_batch
                 (mkBatch (id (batch w)) (volume_liters (batch w))
                          (product_mass_grams (batch w))
                          (contaminants_grams (batch w))
                          (history (batch w) ++ [FailedAt (name config)])) w) ;;
       return_
     else ret tt) ;;
    w <- get_world ;;
    let produced_mass := volume_liters (batch w) * growth_rate config in
    modify (fun w => set_batch
              (mkBatch (id (batch w)) (volume_liters (batch w))
                       (product_mass_grams (batch w) + produced_mass)
                       (contaminants_grams (batch w))
                       (history (batch w))) w) ;;
    modify (fun w => set_batch
              (mkBatch (id (batch w)) (volume_liters (batch w))
                       (product_mass_grams (batch w))
                       (contaminants_grams (batch w))
                       (history (batch w)
                          ++ [CompletedProduced (name config) produced_mass])) w) ;;
    print (FinishedFermentation (name config) produced_mass)).

(** [Chromatography.run] *)
Definition Chromatography_run (config : ChromatographyConfig) (resource : pool)
  : M unit :=
  print (RequestingSkid (name config)) ;;
  with_request resource (
    print (StartedChromatography (name config)) ;;
    let total_cycles := cycles config in
    let cycle_time := cycle_time_hours config in
    repeat_ (Z.to_nat total_cycles) (timeout (Some cycle_time)) ;;
    consume_all (consumables config) ;;
    w <- get_world ;;
    let original_mass := product_mass_grams (batch w) in
    let final_mass := original_mass * yield_step config in
    let loss := original_mass - final_mass in
    modify (fun w => set_batch
              (mkBatch (id (batch w)) (volume_liters (batch w)) final_mass
                       (contaminants_grams (batch w))
                       (history (batch w))) w) ;;
    modify (fun w => set_materials
              (add_waste (materials w) "Purification Waste" loss) w) ;;
    modify (fun w => set_batch
              (mkBatch (id (batch w)) (volume_liters (batch w))
                       (product_mass_grams (batch w))
                       (contaminants_grams (batch w))
                       (history (batch w)
                          ++ [CompletedYield (name config)
                                             (yield_step config * 100)])) w) ;;
    print (FinishedChromatography (name config) (yield_step config * 100)
                                  final_mass)).

(** *** main.py *)

Definition run_step (step_config : StepUnion) : M unit :=
  match step_config with
  | MediaPrepStep c => call (MediaPrep_run c)
  | FermentationStep c => call (Fermentation_run c Bioreactor)
  | ChromatographyStep c => call (Chromatography_run c Skids)
  end.

(** The loop of [process_flow], with its [break] on a failed batch. *)
Fixpoint process_steps (ss : list StepUnion) : M unit :=
  match ss with
  | [] => ret tt
  | step_config :: rest =>
      run_step step_config ;;
      w <- get_world ;;
      if is_zero (volume_liters (batch w))
      then print BatchStopped
      else process_steps rest
  end.

Definition process_flow (config : RecipeConfig) : M unit :=
  process_steps (steps config) ;;
  modify (fun w => set_materials
            (add_product (materials w) (product_mass_grams (batch w))) w).

(** The world [run_simulation] builds before it starts the process: a
    fresh clock, the ledger just reset, one bioreactor, the configured
    number of skids (taken to be positive) and the batch sized by the
    bioreactor volume. *)
Definition initial_world (config : RecipeConfig) : World :=
  mkWorld 0 [] [] reset
          (mkBatch "Batch-001" (bioreactor_volume (resources config)) 0 0 [])
          (mkResource 1 0 0)
          (mkResource (Z.to_nat (chromatography_skids (resources config))) 0 0)
          0.

Definition run_simulation (config : RecipeConfig) : result unit :=
  call (process_flow config) (initial_world config).

End Run.

(** *** Properties of the unit operations *)

Arguments Qltb : simpl never.
Arguments accumulate : simpl never.
Arguments counter_get : simpl never.
Arguments Qplus : simpl never.
Arguments Qmult : simpl never.
Arguments Qminus : simpl never.

Lemma accumulate_lookup (d : gmap string Q) k amount :
  accumulate d k amount !! k = Some (counter_get d k + amount).
Proof.
  unfold accumulate, counter_get. destruct (d !! k) eqn:E.
  - rewrite lookup_insert_eq, E. reflexivity.
  - rewrite !lookup_insert_eq. reflexivity.
Qed.

Lemma accumulate_counter (d : gmap string Q) k amount :
  counter_get (accumulate d k amount) k = counter_get d k + amount.
Proof. unfold counter_get at 1. rewrite accumulate_lookup. reflexivity. Qed.

Lemma consume_fold_waste (cs : gmap string Q) (m : MaterialsManager) :
  waste (map_fold (fun material amount m => consume m material amount) m cs)
  = waste m /\
  product_produced
    (map_fold (fun material amount m => consume m material amount) m cs)
  = product_produced m.
Proof.
  apply (map_fold_weak_ind
           (fun (r : MaterialsManager) (_ : gmap string Q) =>
              waste r = waste m /\ product_produced r = product_produced m)).
  - split; reflexivity.
  - intros i x m' r _ IH. exact IH.
Qed.

(** C3. With contamination_risk = 1, a configured non-negative duration
    and a free slot, Fermentation takes the failure branch for every draw
    in [0,1): it returns early after the duration, the batch volume and
    product mass are 0, 1000 g of contaminant are added, the waste entry
    "Contaminated Batch" grows by the volume the batch had before, one
    failure note is logged and no growth is applied. *)
Theorem contamination_failure (random_source : nat -> Q)
    (config : FermentationConfig) (resource : pool) (w : World) (d : Q) :
  (forall n, 0 <= random_source n < 1) ->
  contamination_risk config == 1 ->
  duration_hours config = Some d -> 0 <= d ->
  (in_use (resource_of resource w) < slots (resource_of resource w))%nat ->
  exists w',
    Fermentation_run random_source config resource w = Returned w' /\
    now w' = now w + d /\
    volume_liters (batch w') = 0 /\
    product_mass_grams (batch w') = 0 /\
    contaminants_grams (batch w') = contaminants_grams (batch w) + 1000 /\
    counter_get (waste (materials w')) "Contaminated Batch"
      = counter_get (waste (materials w)) "Contaminated Batch"
        + volume_liters (batch w) /\
    history (batch w') = history (batch w) ++ [FailedAt (name config)] /\
    in_use (resource_of resource w') = in_use (resource_of resource w).
Proof.
  intros Hr Hrisk Hd Hd0 Hfree.
  unfold Fermentation_run, with_request, bind, acquire.
  cbn [print modify].
  apply Nat.ltb_lt in Hfree.
  destruct resource; cbn [resource_of set_printed bioreactor skids] in *;
    rewrite Hfree; cbn; rewrite Hd; unfold timeout, wake_time;
    rewrite (Qltb_false d 0 Hd0); cbn.
  all: rewrite Qltb_true by (rewrite Hrisk; apply Hr); cbn.
  all: eexists; split; [reflexivity|]; cbn.
  all: rewrite accumulate_counter.
  all: rewrite (proj1 (consume_fold_waste _ _)).
  all: repeat split; reflexivity.
Qed.


(** C9. With contamination_risk = 0 and draws in [0,1), Fermentation never
    takes the failure branch; when it has a non-negative duration and a
    free slot it ends normally with the volume unchanged and the product
    mass increased by volume * growth_rate. *)
Theorem zero_risk_fermentation (random_source : nat -> Q)
    (config : FermentationConfig) (resource : pool) (w : World) :
  (forall n, 0 <= random_source n < 1) ->
  contamination_risk config == 0 ->
  (forall w', Fermentation_run random_source config resource w <> Returned w') /\
  (forall d, duration_hours config = Some d -> 0 <= d ->
     (in_use (resource_of resource w) < slots (resource_of resource w))%nat ->
     exists w',
       Fermentation_run random_source config resource w = Normal tt w' /\
       volume_liters (batch w') = volume_liters (batch w) /\
       product_mass_grams (batch w')
         = product_mass_grams (batch w)
           + volume_liters (batch w) * growth_rate config /\
       contaminants_grams (batch w') = contaminants_grams (batch w) /\
       waste (materials w') = waste (materials w)).
Proof.
  intros Hr Hrisk.
  assert (Hno : forall n, Qltb (random_source n) (contamination_risk config) = false).
  { intros n. apply Qltb_false. rewrite Hrisk. apply Hr. }
  split.
  - intros w'. unfold Fermentation_run, with_request, bind, acquire.
    cbn [print modify].
    destruct resource; cbn [resource_of set_printed bioreactor skids].
    all: match goal with |- context [(?a <? ?b)%nat] => destruct (a <? b)%nat end;
      [|discriminate].
    all: cbn; unfold timeout, wake_time;
      destruct (duration_hours config) as [d|]; [|discriminate].
    all: destruct (Qltb d 0); [discriminate|].
    all: cbn; rewrite Hno; cbn; discriminate.
  - intros d Hd Hd0 Hfree.
    unfold Fermentation_run, with_request, bind, acquire.
    cbn [print modify].
    apply Nat.ltb_lt in Hfree.
    destruct resource; cbn [resource_of set_printed bioreactor skids] in *;
      rewrite Hfree; cbn; rewrite Hd; unfold timeout, wake_time;
      rewrite (Qltb_false d 0 Hd0); cbn.
    all: rewrite Hno; cbn.
    all: eexists; split; [reflexivity|]; cbn.
    all: rewrite (proj1 (consume_fold_waste _ _)).
    all: repeat split; reflexivity.
Qed.

(** C4. Chromatography with cycles = 3, cycle_time_hours = 2 and
    yield_step = 0.9 on a batch of product mass 1000: three timeouts fire
    one after the other, two hours apart, the clock advances by 6, the
    product mass becomes 900 and "Purification Waste" grows by 100. *)
Theorem chromatography_scenario (config : ChromatographyConfig)
    (resource : pool) (w : World) :
  cycles config = 3%Z ->
  cycle_time_hours config == 2 ->
  yield_step config == 9 # 10 ->
  product_mass_grams (batch w) == 1000 ->
  (in_use (resource_of resource w) < slots (resource_of resource w))%nat ->
  exists w',
    Chromatography_run config resource w = Normal tt w' /\
    (exists t1 t2 t3,
        wakeups w' = wakeups w ++ [t1; t2; t3] /\
        t1 == now w + 2 /\ t2 == t1 + 2 /\ t3 == t2 + 2 /\ now w' = t3) /\
    now w' == now w + 6 /\
    product_mass_grams (batch w') == 900 /\
    counter_get (waste (materials w')) "Purification Waste"
      == counter_get (waste (materials w)) "Purification Waste" + 100 /\
    in_use (resource_of resource w') = in_use (resource_of resource w).
Proof.
  intros Hc Ht Hy Hm Hfree.
  assert (Ht0 : Qltb (cycle_time_hours config) 0 = false).
  { apply Qltb_false. rewrite Ht. discriminate. }
  unfold Chromatography_run, with_request, bind, acquire.
  cbn [print modify]. rewrite Hc.
  apply Nat.ltb_lt in Hfree.
  change (Z.to_nat 3) with 3%nat.
  destruct resource; cbn [resource_of set_printed bioreactor skids] in *;
    rewrite Hfree; cbn [repeat_ bind ret]; unfold bind, timeout, wake_time; rewrite Ht0.
  all: cbn.
  all: eexists; split; [reflexivity|].
  all: cbn [wakeups now batch product_mass_grams materials waste add_waste
            bioreactor skids release in_use Nat.pred].
  all: rewrite accumulate_counter, (proj1 (consume_fold_waste _ _)).
  all: rewrite <- !app_assoc; cbn [app].
  all: split; [eexists _, _, _; split; [reflexivity|];
               split; [|split; [|split]]; try reflexivity;
               rewrite Ht; reflexivity|].
  all: split; [rewrite Ht; ring|].
  all: split; [rewrite Hm, Hy; reflexivity|].
  all: split; [rewrite Hm, Hy; ring|reflexivity].
Qed.

(** A piece of a generator body is [steady] when it leaves both pools as
    they are and never stays suspended. *)
Definition steady {A} (c : M A) : Prop :=
  forall w,
    bioreactor (world_of (c w)) = bioreactor w /\
    skids (world_of (c w)) = skids w /\
    (forall w', c w <> Waiting w').

Lemma steady_ret {A} (a : A) : steady (ret a).
Proof. intros w. cbn. repeat split; discriminate. Qed.

Lemma steady_return {A} : steady (@return_ A).
Proof. intros w. cbn. repeat split; discriminate. Qed.

Lemma steady_get_world : steady get_world.
Proof. intros w. cbn. repeat split; discriminate. Qed.

Lemma steady_modify (f : World -> World) :
  (forall w, bioreactor (f w) = bioreactor w /\ skids (f w) = skids w) ->
  steady (modify f).
Proof.
  intros Hf w. cbn. destruct (Hf w) as [H1 H2].
  split; [exact H1|]. split; [exact H2|]. discriminate.
Qed.

Lemma steady_print l : steady (print l).
Proof. apply steady_modify. intros w. split; reflexivity. Qed.

Lemma steady_consume_all cs : steady (consume_all cs).
Proof. apply steady_modify. intros w. split; reflexivity. Qed.

Lemma steady_timeout d : steady (timeout d).
Proof.
  intros w. unfold timeout, wake_time.
  destruct d as [d|]; [destruct (Qltb d 0)|]; cbn; repeat split; discriminate.
Qed.

Lemma steady_random rs : steady (random_random rs).
Proof. intros w. cbn. repeat split; discriminate. Qed.

Lemma steady_bind {A B} (c : M A) (k : A -> M B) :
  steady c -> (forall a, steady (k a)) -> steady (bind c k).
Proof.
  intros Hc Hk w. unfold bind.
  destruct (Hc w) as (H1 & H2 & H3).
  destruct (c w) as [a w1|w1|e w1|w1]; cbn in H1, H2.
  - destruct (Hk a w1) as (K1 & K2 & K3).
    rewrite K1, K2. auto.
  - cbn. repeat split; auto; discriminate.
  - cbn. repeat split; auto; discriminate.
  - exfalso. exact (H3 w1 eq_refl).
Qed.

Lemma steady_repeat n (body : M unit) : steady body -> steady (repeat_ n body).
Proof.
  intros Hb. induction n as [|n IH]; cbn [repeat_].
  - apply steady_ret.
  - apply steady_bind; auto.
Qed.

Lemma resource_of_steady {A} (c : M A) p w :
  steady c -> resource_of p (world_of (c w)) = resource_of p w.
Proof. intros H. destruct (H w) as (H1 & H2 & _). destruct p; assumption. Qed.

Lemma resource_of_set_same p r w : resource_of p (set_resource p r w) = r.
Proof. destruct p; reflexivity. Qed.

(** Leaving a [with] block gives the slot back on every exit. *)
Lemma with_request_in_use p (body : M unit) w :
  steady body ->
  in_use (resource_of p (world_of (with_request p body w)))
  = in_use (resource_of p w).
Proof.
  intros Hb. unfold with_request, acquire.
  destruct (in_use (resource_of p w) <? slots (resource_of p w))%nat.
  - pose proof (resource_of_steady body p
                  (set_resource p
                     (mkResource (slots (resource_of p w))
                                 (S (in_use (resource_of p w)))
                                 (waiting (resource_of p w))) w) Hb) as Hr.
    rewrite resource_of_set_same in Hr.
    destruct (Hb (set_resource p
                     (mkResource (slots (resource_of p w))
                                 (S (in_use (resource_of p w)))
                                 (waiting (resource_of p w))) w))
      as (_ & _ & Hw).
    destruct (body _) as [a w1|w1|e w1|w1]; cbn [world_of] in *.
    + rewrite resource_of_set_same, Hr. reflexivity.
    + rewrite resource_of_set_same, Hr. reflexivity.
    + rewrite resource_of_set_same, Hr. reflexivity.
    + exfalso. exact (Hw w1 eq_refl).
  - cbn [world_of]. rewrite resource_of_set_same. reflexivity.
Qed.

Ltac steady_step :=
  first [ apply steady_ret | apply steady_return | apply steady_get_world
        | apply steady_print | apply steady_consume_all | apply steady_timeout
        | apply steady_random
        | apply steady_repeat
        | apply steady_modify; intros ?; split; reflexivity
        | apply steady_bind; [|intros ?] ].

(** C7. Fermentation and Chromatography leave the number of slots in use
    of their pool as they found it, however the run ends: normally, by the
    early [return] of the contamination branch, or by an exception. *)
Theorem no_leaked_capacity (random_source : nat -> Q)
    (fconfig : FermentationConfig) (cconfig : ChromatographyConfig)
    (resource : pool) (w : World) :
  in_use (resource_of resource
            (world_of (Fermentation_run random_source fconfig resource w)))
  = in_use (resource_of resource w) /\
  in_use (resource_of resource
            (world_of (Chromatography_run cconfig resource w)))
  = in_use (resource_of resource w).
Proof.
  split.
  - unfold Fermentation_run. unfold bind at 1. cbn [print modify].
    rewrite with_request_in_use.
    + destruct resource; reflexivity.
    + repeat steady_step.
      destruct (Qltb _ _); repeat steady_step.
  - unfold Chromatography_run. unfold bind at 1. cbn [print modify].
    rewrite with_request_in_use.
    + destruct resource; reflexivity.
    + repeat steady_step.
Qed.



Section SameDraws.
Variables rs1 rs2 : nat -> Q.
Hypothesis same_draws : forall n, rs1 n == rs2 n.




End SameDraws.

Definition unlucky : nat -> Q := fun _ => 1 # 4.



(** Concrete instances: the recipes and worlds the scenarios run on. *)
Definition always_fails : FermentationConfig :=
  mkFermentationConfig (mkStepConfig "Fermentation" (Some 48) {["Glucose" := 50]} None)
                       1 2.
Definition never_fails : FermentationConfig :=
  mkFermentationConfig (mkStepConfig "Fermentation" (Some 48) {["Glucose" := 50]} None)
                       0 2.
Definition three_cycles : ChromatographyConfig :=
  mkChromatographyConfig (mkStepConfig "Capture" None {["Resin" := 1]} None)
                         2 3 (9 # 10).
Definition fresh_world : World :=
  initial_world (mkRecipeConfig (mkResourceConfig 500 1) []).
Definition loaded_world : World :=
  set_batch (mkBatch "Batch-001" 500 1000 0 []) fresh_world.

Lemma contamination_failure_witness :
  (forall n, 0 <= unlucky n < 1) /\
  contamination_risk always_fails == 1 /\
  exists w',
    Fermentation_run unlucky always_fails Bioreactor fresh_world = Returned w' /\
    now w' = now fresh_world + 48 /\
    volume_liters (batch w') = 0 /\
    product_mass_grams (batch w') = 0 /\
    counter_get (waste (materials w')) "Contaminated Batch"
    = counter_get (waste (materials fresh_world)) "Contaminated Batch" + 500.
Proof.
  assert (Hr : forall n, 0 <= unlucky n < 1).
  { intros n. split; [discriminate|reflexivity]. }
  split; [exact Hr|]. split; [reflexivity|].
  destruct (contamination_failure unlucky always_fails Bioreactor fresh_world 48)
    as (w' & H1 & H2 & H3 & H4 & _ & H6 & _).
  - exact Hr.
  - reflexivity.
  - reflexivity.
  - discriminate.
  - vm_compute. lia.
  - exists w'. repeat (split; [assumption|]). exact H6.
Defined.

Lemma zero_risk_fermentation_witness :
  (forall n, 0 <= unlucky n < 1) /\
  contamination_risk never_fails == 0 /\
  exists w',
    Fermentation_run unlucky never_fails Bioreactor fresh_world = Normal tt w' /\
    volume_liters (batch w') = volume_liters (batch fresh_world) /\
    product_mass_grams (batch w')
    = product_mass_grams (batch fresh_world)
      + volume_liters (batch fresh_world) * growth_rate never_fails.
Proof.
  assert (Hr : forall n, 0 <= unlucky n < 1).
  { intros n. split; [discriminate|reflexivity]. }
  split; [exact Hr|]. split; [reflexivity|].
  destruct (zero_risk_fermentation unlucky never_fails Bioreactor fresh_world Hr)
    as [_ Hrun]; [reflexivity|].
  destruct (Hrun 48) as (w' & H1 & H2 & H3 & _).
  - reflexivity.
  - discriminate.
  - vm_compute. lia.
  - exists w'. split; [assumption|]. split; assumption.
Defined.

Lemma chromatography_scenario_witness :
  product_mass_grams (batch loaded_world) == 1000 /\
  exists w',
    Chromatography_run three_cycles Skids loaded_world = Normal tt w' /\
    now w' == now loaded_world + 6 /\
    product_mass_grams (batch w') == 900 /\
    counter_get (waste (materials w')) "Purification Waste"
    == counter_get (waste (materials loaded_world)) "Purification Waste" + 100.
Proof.
  split; [reflexivity|].
  destruct (chromatography_scenario three_cycles Skids loaded_world)
    as (w' & H1 & _ & H3 & H4 & H5 & _).
  - reflexivity.
  - reflexivity.
  - reflexivity.
  - reflexivity.
  - vm_compute. lia.
  - exists w'. split; [assumption|]. split; [assumption|]. split; assumption.
Defined.

(** The slot also comes back when the body raises: a fermentation step
    without a duration fails at its timeout, after it took the slot. *)
Example raising_run_releases :
  exists w',
    Fermentation_run unlucky
      (mkFermentationConfig (mkStepConfig "Fermentation" None ∅ None) (1 # 2) 2)
      Bioreactor fresh_world
    = Raised TypeError w' /\
    in_use (bioreactor w') = in_use (bioreactor fresh_world).
Proof. eexists. split; [vm_compute; reflexivity|reflexivity]. Qed.

(** With every slot taken the process only queues: nothing is acquired. *)
Example busy_pool_queues :
  exists w',
    Chromatography_run three_cycles Skids
      (set_resource Skids (mkResource 1 1 0) loaded_world)
    = Waiting w' /\
    skids w' = mkResource 1 1 1.
Proof. eexists. split; [vm_compute; reflexivity|reflexivity]. Qed.

End Units.

(** ** engine.py: who owns the ledger *)
Module Engine.
Import Kernel Units.

(** Object references. *)
Definition loc : Type := nat.

(** The part of the interpreter state the ledger lives in: the class
    attribute [MaterialsManager._instance] and the allocated ledger
    objects. *)
Record Heap : Type := mkHeap {
  MaterialsManager_instance : option loc;
  objects : gmap loc MaterialsManager
}.

(** Before the first [MaterialsManager()] call. *)
Definition empty_heap : Heap := mkHeap None ∅.

(** [MaterialsManager.__new__]: allocates and resets an object only when
    [_instance] is [None]; every call returns [_instance]. *)
Definition MaterialsManager_new (h : Heap) : loc * Heap :=
  match MaterialsManager_instance h with
  | None =>
      let l := fresh (dom (objects h)) in
      (l, mkHeap (Some l) (<[l := reset]> (objects h)))
  | Some l => (l, h)
  end.

(** [obj.reset()] through a reference. *)
Definition reset_at (l : loc) (h : Heap) : Heap :=
  mkHeap (MaterialsManager_instance h) (<[l := reset]> (objects h)).

(** [obj.add_waste(waste_type, amount)] through a reference. *)
Definition add_waste_at (l : loc) (waste_type : string) (amount : Q) (h : Heap)
  : Heap :=
  mkHeap (MaterialsManager_instance h)
         (alter (fun m => add_waste m waste_type amount) l (objects h)).

(** [obj.consume(material, amount)] through a reference. *)
Definition consume_at (l : loc) (material : string) (amount : Q) (h : Heap)
  : Heap :=
  mkHeap (MaterialsManager_instance h)
         (alter (fun m => consume m material amount) l (objects h)).

(** [obj.add_product(amount)] through a reference. *)
Definition add_product_at (l : loc) (amount : Q) (h : Heap) : Heap :=
  mkHeap (MaterialsManager_instance h)
         (alter (fun m => add_product m amount) l (objects h)).

Record SimulationEngine : Type := mkEngine {
  materials_manager : loc;
  tanks : gmap string Container
}.

(** [SimulationEngine.__init__] *)
Definition SimulationEngine_init (h : Heap) : SimulationEngine * Heap :=
  let '(l, h1) := MaterialsManager_new h in
  (mkEngine l ∅, reset_at l h1).

(** [create_tank] *)
Definition create_tank (e : SimulationEngine) (name : string) (capacity : Q)
  : SimulationEngine :=
  mkEngine (materials_manager e) (<[name := mkContainer capacity 0]> (tanks e)).

(** [UnitOperation.__init__]: [self.materials = MaterialsManager()]. *)
Definition UnitOperation_materials (h : Heap) : loc * Heap :=
  MaterialsManager_new h.

(** What a ledger user does between two engine constructions. *)
Inductive ledger_op : Type :=
| Consume (l : loc) (material : string) (amount : Q)
| AddWaste (l : loc) (waste_type : string) (amount : Q)
| AddProduct (l : loc) (amount : Q)
| NewUnitOperation.

Definition apply_op (o : ledger_op) (h : Heap) : Heap :=
  match o with
  | Consume l material amount => consume_at l material amount h
  | AddWaste l waste_type amount => add_waste_at l waste_type amount h
  | AddProduct l amount => add_product_at l amount h
  | NewUnitOperation => snd (UnitOperation_materials h)
  end.

Definition apply_ops (os : list ledger_op) (h : Heap) : Heap :=
  foldl (fun h o => apply_op o h) h os.

(** The ledger an engine sees. *)
Definition ledger_of (e : SimulationEngine) (h : Heap) : option MaterialsManager :=
  objects h !! materials_manager e.

Lemma new_sets_instance (h : Heap) :
  MaterialsManager_instance (snd (MaterialsManager_new h))
  = Some (fst (MaterialsManager_new h)).
Proof.
  unfold MaterialsManager_new.
  destruct (MaterialsManager_instance h) eqn:E; cbn; [exact E|reflexivity].
Qed.

Lemma new_keeps_instance (h : Heap) (l : loc) :
  MaterialsManager_instance h = Some l ->
  MaterialsManager_new h = (l, h).
Proof. unfold MaterialsManager_new. intros ->. reflexivity. Qed.

Lemma apply_op_instance (o : ledger_op) (h : Heap) (l : loc) :
  MaterialsManager_instance h = Some l ->
  MaterialsManager_instance (apply_op o h) = Some l.
Proof.
  intros H. destruct o; cbn; try exact H.
  unfold UnitOperation_materials. rewrite (new_keeps_instance h l H). exact H.
Qed.

Lemma apply_ops_instance (os : list ledger_op) : forall (h : Heap) (l : loc),
  MaterialsManager_instance h = Some l ->
  MaterialsManager_instance (apply_ops os h) = Some l.
Proof.
  induction os as [|o os IH]; intros h l H; [exact H|].
  cbn. apply IH. apply apply_op_instance. exact H.
Qed.

Lemma init_instance (h : Heap) :
  MaterialsManager_instance (snd (SimulationEngine_init h))
  = Some (materials_manager (fst (SimulationEngine_init h))).
Proof.
  unfold SimulationEngine_init.
  pose proof (new_sets_instance h) as H.
  destruct (MaterialsManager_new h) as [l h1]. cbn in *. exact H.
Qed.

Lemma init_resets (h : Heap) :
  ledger_of (fst (SimulationEngine_init h)) (snd (SimulationEngine_init h))
  = Some reset.
Proof.
  unfold SimulationEngine_init, ledger_of.
  destruct (MaterialsManager_new h) as [l h1]. cbn.
  apply lookup_insert_eq.
Qed.

(** C8 (amended). The ledger is one object for the whole interpreter: an
    engine construction resets it (empty inventory, empty waste, zero
    product), and an engine constructed later, after any ledger traffic,
    refers to the same object and finds it reset again, so both engines
    read the same, emptied accumulators. *)
Theorem ledger_is_shared_and_reset (h : Heap) (os : list ledger_op) :
  let e1 := fst (SimulationEngine_init h) in
  let h1 := snd (SimulationEngine_init h) in
  let e2 := fst (SimulationEngine_init (apply_ops os h1)) in
  let h2 := snd (SimulationEngine_init (apply_ops os h1)) in
  ledger_of e1 h1 = Some reset /\
  materials_manager e2 = materials_manager e1 /\
  ledger_of e2 h2 = Some reset /\
  ledger_of e1 h2 = Some reset.
Proof.
  cbv zeta.
  pose proof (init_instance h) as Hi.
  pose proof (apply_ops_instance os _ _ Hi) as Ho.
  assert (He : materials_manager (fst (SimulationEngine_init
                 (apply_ops os (snd (SimulationEngine_init h)))))
               = materials_manager (fst (SimulationEngine_init h))).
  { unfold SimulationEngine_init at 1.
    rewrite (new_keeps_instance _ _ Ho). reflexivity. }
  split; [apply init_resets|]. split; [exact He|].
  split; [apply init_resets|].
  unfold ledger_of. rewrite <- He. apply init_resets.
Qed.

(** C8 as stated fails: a second engine does not get a ledger of its own.
    The run below builds an engine, records waste, and builds a second
    engine: both refer to one object, and the waste of the first is gone. *)
Lemma second_engine_aliases_first :
  let e1 := fst (SimulationEngine_init empty_heap) in
  let h1 := add_waste_at (materials_manager e1) "Purification Waste" 100
                         (snd (SimulationEngine_init empty_heap)) in
  let e2 := fst (SimulationEngine_init h1) in
  let h2 := snd (SimulationEngine_init h1) in
  (waste <$> ledger_of e1 h1) = Some {["Purification Waste" := 0 + 100]} /\
  ~ materials_manager e1 <> materials_manager e2 /\
  (waste <$> ledger_of e1 h2) = Some ∅.
Proof.
  cbv zeta. split; [|split].
  - vm_compute. reflexivity.
  - intros H. apply H. vm_compute. reflexivity.
  - vm_compute. reflexivity.
Qed.

End Engine.

(** ** first_classy_sim.py: filling and emptying a tank at a rate *)
Module ClassySim.
Import Kernel.

Record Tank : Type := mkTank {
  name : string;
  dt : Q;
  status : string;
  container : Container
}.

(** [Tank.__init__] *)
Definition new_tank (dt : Q) (name : string) (capacity initial_level : Q) : Tank :=
  mkTank name dt "Idle" (mkContainer capacity initial_level).

(** The clock, the tank and the amounts moved so far (oldest first). *)
Record State : Type := mkState {
  now : Q;
  tank : Tank;
  moved : list Q
}.

Definition tank_level (s : State) : Q := level (container (tank s)).

Definition set_status (st : string) (s : State) : State :=
  mkState (now s)
          (mkTank (name (tank s)) (dt (tank s)) st (container (tank s)))
          (moved s).

Definition after_move (t : Q) (c : Container) (amount : Q) (s : State) : State :=
  mkState t
          (mkTank (name (tank s)) (dt (tank s)) (status (tank s)) c)
          (moved s ++ [amount]).

Definition at_time (t : Q) (s : State) : State :=
  mkState t (tank s) (moved s).

(** How a call ends.  [OutOfFuel] is an artefact of the bounded unrolling
    of the [while] loops, not a behaviour of the program. *)
Inductive ending : Type :=
| Finished (s : State)
| Failed (e : exn) (s : State)
| Stuck (s : State)
| OutOfFuel (s : State).

(** The [while] loop of [fill_to_level]. *)
Fixpoint fill_loop (fuel : nat) (target_level rate : Q) (s : State) : ending :=
  match fuel with
  | O => OutOfFuel s
  | S fuel' =>
      if Qltb (tank_level s) target_level then
        match wake_time (now s) (dt (tank s)) with
        | Granted t =>
            let c := container (tank s) in
            let space_available := capacity c - level c in
            let amount := Qmin (rate * dt (tank s)) space_available in
            match put c amount with
            | Granted c' =>
                fill_loop fuel' target_level rate (after_move t c' amount s)
            | Rejected e => Failed e (at_time t s)
            | Suspended => Stuck (at_time t s)
            end
        | Rejected e => Failed e s
        | Suspended => Stuck s
        end
      else Finished s
  end.

(** [fill_to_level] *)
Definition fill_to_level (fuel : nat) (target_level rate : Q) (s : State)
  : ending :=
  match fill_loop fuel target_level rate (set_status "Filling" s) with
  | Finished s' => Finished (set_status "Idle" s')
  | r => r
  end.

(** The [while] loop of [empty_to_level]. *)
Fixpoint empty_loop (fuel : nat) (target_level rate : Q) (s : State) : ending :=
  match fuel with
  | O => OutOfFuel s
  | S fuel' =>
      if Qltb target_level (tank_level s) then
        match wake_time (now s) (dt (tank s)) with
        | Granted t =>
            let c := container (tank s) in
            let remaining_volume := level c - target_level in
            let amount := Qmin (rate * dt (tank s)) remaining_volume in
            match get c amount with
            | Granted c' =>
                empty_loop fuel' target_level rate (after_move t c' amount s)
            | Rejected e => Failed e (at_time t s)
            | Suspended => Stuck (at_time t s)
            end
        | Rejected e => Failed e s
        | Suspended => Stuck s
        end
      else Finished s
  end.

(** [empty_to_level] *)
Definition empty_to_level (fuel : nat) (target_level rate : Q) (s : State)
  : ending :=
  match empty_loop fuel target_level rate (set_status "Emptying" s) with
  | Finished s' => Finished (set_status "Idle" s')
  | r => r
  end.

(** [n] steps of [q] litres. *)
Fixpoint steps_of (n : nat) (q : Q) : Q :=
  match n with
  | O => 0
  | S n' => q + steps_of n' q
  end.

Fixpoint sum_moves (l : list Q) : Q :=
  match l with
  | [] => 0
  | a :: l' => a + sum_moves l'
  end.

(** A 100 L tank, empty, stepped every hour. *)
Definition hourly_tank : State := mkState 0 (new_tank 1 "Tank1" 100 0) [].

(** *** Properties of the two loops *)

Lemma sum_moves_app (l : list Q) (a : Q) :
  sum_moves (l ++ [a]) == sum_moves l + a.
Proof. induction l as [|x l IH]; cbn [app sum_moves]; [ring|rewrite IH; ring]. Qed.

(** [empty_to_level]'s loop: with a positive step and a target between 0 and
    the level, enough fuel ends the loop exactly at the target; every step
    takes [min (rate * dt) (level - target)], and what was taken adds up to
    the initial gap. *)
Lemma empty_loop_reaches_target (n : nat) :
  forall (target_level rate : Q) (s : State),
    0 <= dt (tank s) ->
    0 < rate * dt (tank s) ->
    0 <= target_level ->
    target_level <= tank_level s ->
    tank_level s <= capacity (container (tank s)) ->
    tank_level s - target_level <= steps_of n (rate * dt (tank s)) ->
    exists s',
      empty_loop (S n) target_level rate s = Finished s' /\
      tank_level s' == target_level /\
      status (tank s') = status (tank s) /\
      sum_moves (moved s') == sum_moves (moved s) + (tank_level s - target_level).
Proof.
  induction n as [|n IH]; intros target rate s Hdt Hq Ht Hle Hcap Hgap.
  - cbn [steps_of] in Hgap. cbn [empty_loop].
    rewrite Qltb_false by lra.
    exists s. split; [reflexivity|]. split; [lra|]. split; [reflexivity|lra].
  - cbn [empty_loop].
    destruct (Qltb_spec target (tank_level s)) as [[-> Hlt]|[-> Hge]].
    + unfold wake_time. rewrite (Qltb_false _ _ Hdt).
      cbv zeta. unfold tank_level in *.
      set (c := container (tank s)) in *.
      set (a := Qmin (rate * dt (tank s)) (level c - target)).
      assert (Ha : (a == rate * dt (tank s) /\ rate * dt (tank s) <= level c - target)
                   \/ (a == level c - target /\ level c - target <= rate * dt (tank s))).
      { destruct (Q.min_spec (rate * dt (tank s)) (level c - target)) as [[H1 H2]|[H1 H2]].
        - left. split; [exact H2|lra].
        - right. split; [exact H2|lra]. }
      unfold get.
      rewrite (Qle_bool_false a 0) by (destruct Ha as [[-> ?]|[-> ?]]; lra).
      rewrite (Qltb_false (capacity c) a) by (destruct Ha as [[-> ?]|[-> ?]]; lra).
      rewrite (Qle_bool_true a (level c)) by (destruct Ha as [[-> ?]|[-> ?]]; lra).
      destruct (IH target rate
                   (after_move (now s + dt (tank s))
                               (mkContainer (capacity c) (level c - a)) a s))
        as (s' & H1 & H2 & H3 & H4).
      * exact Hdt.
      * exact Hq.
      * exact Ht.
      * cbn. destruct Ha as [[-> ?]|[-> ?]]; lra.
      * cbn. destruct Ha as [[-> ?]|[-> ?]]; lra.
      * cbn. cbn [steps_of] in Hgap. destruct Ha as [[-> ?]|[-> ?]]; [lra|].
        assert (0 <= steps_of n (rate * dt (tank s))).
        { clear -Hq. induction n; cbn [steps_of]; lra. }
        lra.
      * exists s'. split; [exact H1|]. split; [exact H2|]. split; [exact H3|].
        rewrite H4. cbn. rewrite sum_moves_app. ring.
    + exists s. split; [reflexivity|]. unfold tank_level in *.
      split; [lra|]. split; [reflexivity|lra].
Qed.

(** X19. [empty_to_level] stops exactly at its target: with a positive
    step, a target between 0 and the level and a level within the capacity,
    enough fuel ends the call at the target with status Idle. *)
Lemma empty_to_level_reaches_target (n : nat) (target_level rate : Q) (s : State) :
  0 <= dt (tank s) ->
  0 < rate * dt (tank s) ->
  0 <= target_level ->
  target_level <= tank_level s ->
  tank_level s <= capacity (container (tank s)) ->
  tank_level s - target_level <= steps_of n (rate * dt (tank s)) ->
  exists s',
    empty_to_level (S n) target_level rate s = Finished s' /\
    tank_level s' == target_level /\
    status (tank s') = "Idle".
Proof.
  intros Hdt Hq Ht Hle Hcap Hgap. unfold empty_to_level.
  destruct (empty_loop_reaches_target n target_level rate (set_status "Emptying" s))
    as (s' & H1 & H2 & _); try assumption.
  rewrite H1. exists (set_status "Idle" s').
  split; [reflexivity|]. split; [exact H2|reflexivity].
Qed.

(** [fill_to_level]'s loop when the target is the capacity (the way the
    script calls it): enough fuel ends the loop exactly at the target. *)
Lemma fill_loop_reaches_capacity (n : nat) :
  forall (rate : Q) (s : State),
    0 <= dt (tank s) ->
    0 < rate * dt (tank s) ->
    0 <= tank_level s ->
    tank_level s <= capacity (container (tank s)) ->
    capacity (container (tank s)) - tank_level s
      <= steps_of n (rate * dt (tank s)) ->
    exists s',
      fill_loop (S n) (capacity (container (tank s))) rate s = Finished s' /\
      tank_level s' == capacity (container (tank s)) /\
      status (tank s') = status (tank s).
Proof.
  induction n as [|n IH]; intros rate s Hdt Hq H0 Hle Hgap.
  - cbn [steps_of] in Hgap. cbn [fill_loop].
    rewrite Qltb_false by lra.
    exists s. split; [reflexivity|]. split; [lra|reflexivity].
  - cbn [fill_loop].
    destruct (Qltb_spec (tank_level s) (capacity (container (tank s))))
      as [[-> Hlt]|[-> Hge]].
    + unfold wake_time. rewrite (Qltb_false _ _ Hdt).
      cbv zeta. unfold tank_level in *.
      set (c := container (tank s)) in *.
      set (a := Qmin (rate * dt (tank s)) (capacity c - level c)).
      assert (Ha : (a == rate * dt (tank s)
                    /\ rate * dt (tank s) <= capacity c - level c)
                   \/ (a == capacity c - level c
                       /\ capacity c - level c <= rate * dt (tank s))).
      { destruct (Q.min_spec (rate * dt (tank s)) (capacity c - level c))
          as [[H1 H2]|[H1 H2]].
        - left. split; [exact H2|lra].
        - right. split; [exact H2|lra]. }
      unfold put.
      rewrite (Qle_bool_false a 0) by (destruct Ha as [[-> ?]|[-> ?]]; lra).
      rewrite (Qltb_false (capacity c) a) by (destruct Ha as [[-> ?]|[-> ?]]; lra).
      rewrite (Qle_bool_true (level c + a) (capacity c))
        by (destruct Ha as [[-> ?]|[-> ?]]; lra).
      destruct (IH rate
                   (after_move (now s + dt (tank s))
                               (mkContainer (capacity c) (level c + a)) a s))
        as (s' & H1 & H2 & H3).
      * exact Hdt.
      * exact Hq.
      * cbn. destruct Ha as [[-> ?]|[-> ?]]; lra.
      * cbn. destruct Ha as [[-> ?]|[-> ?]]; lra.
      * cbn. cbn [steps_of] in Hgap. destruct Ha as [[-> ?]|[-> ?]]; [lra|].
        assert (0 <= steps_of n (rate * dt (tank s))).
        { clear -Hq. induction n; cbn [steps_of]; lra. }
        lra.
      * exists s'. split; [exact H1|]. split; [exact H2|exact H3].
    + exists s. split; [reflexivity|]. unfold tank_level in *.
      split; [lra|reflexivity].
Qed.

(** C6 fails for [fill_to_level]: its step is bounded by the free space of
    the container, not by the gap to the target.  Filling the empty 100 L
    tank to 50 L at 8 L/h with dt = 1 moves 8 L seven times and stops at
    56 L; at 48 L the gap was 2 L and the step still moved 8 L. *)
Theorem fill_to_level_overshoots :
  exists s',
    fill_to_level 8 50 8 hourly_tank = Finished s' /\
    moved s' = [8; 8; 8; 8; 8; 8; 8] /\
    tank_level s' == 56 /\
    50 < tank_level s' /\
    status (tank s') = "Idle" /\
    ~ 8 == Qmin (8 * dt (tank hourly_tank)) (50 - 48).
Proof.
  eexists. split; [vm_compute; reflexivity|].
  split; [reflexivity|]. split; [reflexivity|]. split; [reflexivity|].
  split; [reflexivity|]. vm_compute. discriminate.
Qed.

(** The sibling [empty_to_level] keeps to the law on the mirrored run:
    emptying the full tank to 50 L at 6 L/h ends exactly at 50 L, the last
    step taking the 2 L that were left. *)
Example empty_to_level_stops_at_target :
  exists s',
    empty_to_level 10 50 6 (mkState 0 (new_tank 1 "Tank1" 100 100) [])
    = Finished s' /\
    moved s' = [6; 6; 6; 6; 6; 6; 6; 6; 2] /\
    tank_level s' == 50.
Proof.
  eexists. split; [vm_compute; reflexivity|]. split; reflexivity.
Qed.

End ClassySim.

(** ** test_mixing2.py: further laws of the mass-balance tank *)
Module MixingLaws.
Import Kernel Mixing.

Arguments Qltb : simpl never.
Arguments counter_get : simpl never.
Arguments Units.accumulate : simpl never.
Arguments Qplus : simpl never.
Arguments Qmult : simpl never.
Arguments Qminus : simpl never.

(** What a granted [get_liquid] computes, key by key. *)
Lemma get_liquid_granted (t : AdvancedTank) (v : Q) (t' : AdvancedTank)
    (out : Liquid) :
  get_liquid t v = Granted (t', out) ->
  0 < v /\ v <= current_volume t /\
  volume out = v /\
  container t' = mkContainer (capacity (container t)) (current_volume t - v) /\
  forall s,
    contents out !! s
    = (fun x => x * (v / (current_volume t - v + v))) <$> (inventory t !! s) /\
    inventory t' !! s
    = (fun x => x - x * (v / (current_volume t - v + v))) <$> (inventory t !! s).
Proof.
  unfold get_liquid, get, current_volume.
  destruct (Qle_bool v 0) eqn:E0; [discriminate|].
  destruct (Qltb (capacity (container t)) v); [discriminate|].
  destruct (Qle_bool v (level (container t))) eqn:E1; [|discriminate].
  cbv zeta. cbn [level].
  pose proof (extract_contents_lookup (inventory t)
                (v / (level (container t) - v + v))) as Hx.
  destruct (extract_contents (inventory t) (v / (level (container t) - v + v)))
    as [ext inv'].
  intros [= <- <-]. cbn.
  split.
  { destruct (Qlt_le_dec 0 v) as [H|H]; [exact H|].
    apply Qle_bool_iff in H. congruence. }
  split; [apply Qle_bool_iff; exact E1|].
  split; [reflexivity|]. split; [reflexivity|].
  intros s. exact (Hx s).
Qed.

Lemma put_liquid_granted (t : AdvancedTank) (liquid : Liquid) (t' : AdvancedTank) :
  put_liquid t liquid = Granted t' ->
  0 < volume liquid /\
  current_volume t + volume liquid <= capacity (container t) /\
  container t'
  = mkContainer (capacity (container t)) (current_volume t + volume liquid) /\
  inventory t' = add_contents (inventory t) (contents liquid).
Proof.
  unfold put_liquid, put, current_volume.
  destruct (Qle_bool (volume liquid) 0) eqn:E0; [discriminate|].
  destruct (Qltb (capacity (container t)) (volume liquid)); [discriminate|].
  destruct (Qle_bool (level (container t) + volume liquid) (capacity (container t)))
    eqn:E1; [|discriminate].
  intros [= <-]. cbn.
  split.
  { destruct (Qlt_le_dec 0 (volume liquid)) as [H|H]; [exact H|].
    apply Qle_bool_iff in H. congruence. }
  split; [apply Qle_bool_iff; exact E1|]. split; reflexivity.
Qed.



(** X2. A Liquid taken out lists exactly the substances of the tank, and the
    tank keeps every one of them, also when it is drained. *)
Theorem get_liquid_keeps_keys (t : AdvancedTank) (v : Q)
    (t' : AdvancedTank) (out : Liquid) :
  get_liquid t v = Granted (t', out) ->
  dom (contents out) = dom (inventory t) /\
  dom (inventory t') = dom (inventory t).
Proof.
  intros Hg.
  destruct (get_liquid_granted t v t' out Hg) as (_ & _ & _ & _ & Hk).
  split; apply set_eq; intros s; rewrite !elem_of_dom;
    destruct (Hk s) as [Ho Hi]; [rewrite Ho|rewrite Hi];
    destruct (inventory t !! s); cbn; split; intros [x Hx]; eauto; discriminate.
Qed.

(** X3. Draining the tank takes the whole mass of every substance and leaves
    its entry at zero. *)
Theorem get_liquid_drains (t : AdvancedTank) (t' : AdvancedTank) (out : Liquid)
    (s : string) (M : Q) :
  get_liquid t (current_volume t) = Granted (t', out) ->
  inventory t !! s = Some M ->
  (exists m, contents out !! s = Some m /\ m == M) /\
  (exists r, inventory t' !! s = Some r /\ r == 0) /\
  current_volume t' == 0.
Proof.
  intros Hg HM.
  destruct (get_liquid_granted t _ t' out Hg) as (Hv & _ & _ & Hc & Hk).
  destruct (Hk s) as [Ho Hi]. rewrite HM in Ho, Hi. cbn in Ho, Hi.
  split; [|split].
  - eexists. split; [exact Ho|]. field. lra.
  - eexists. split; [exact Hi|]. field. lra.
  - unfold current_volume at 1. rewrite Hc. cbn. ring.
Qed.

(** Masses that are all non-negative. *)
Definition nonneg (m : gmap string Q) : Prop :=
  forall k x, m !! k = Some x -> 0 <= x.

Definition puts_nonneg (o : op) : Prop :=
  match o with
  | PutLiquid liquid => nonneg (contents liquid)
  | GetLiquid _ => True
  end.

Definition sound (r : run) : Prop :=
  0 <= current_volume (tank r) /\
  nonneg (inventory (tank r)) /\
  Forall (fun l => nonneg (contents l)) (extracted r).

Lemma fraction_bounds (V v : Q) :
  0 < v -> v <= V -> 0 <= v / (V - v + v) <= 1.
Proof.
  intros Hv Hle. split.
  - apply Qle_shift_div_l; lra.
  - apply Qle_shift_div_r; lra.
Qed.

Lemma put_liquid_sound (t t' : AdvancedTank) (liquid : Liquid) :
  put_liquid t liquid = Granted t' ->
  0 <= current_volume t -> nonneg (inventory t) -> nonneg (contents liquid) ->
  0 <= current_volume t' /\ nonneg (inventory t').
Proof.
  intros Hp H0 Hn Hl.
  destruct (put_liquid_granted t liquid t' Hp) as (Hv & _ & Hc & Hi).
  split.
  - unfold current_volume at 1. rewrite Hc. cbn. lra.
  - intros k x. rewrite Hi, add_contents_lookup.
    destruct (contents liquid !! k) as [m|] eqn:E.
    + intros [= <-]. specialize (Hl k m E).
      unfold counter_get. destruct (inventory t !! k) as [y|] eqn:Ey; cbn.
      * specialize (Hn k y Ey). lra.
      * lra.
    + apply Hn.
Qed.

Lemma get_liquid_sound (t t' : AdvancedTank) (v : Q) (out : Liquid) :
  get_liquid t v = Granted (t', out) ->
  nonneg (inventory t) ->
  0 <= current_volume t' /\ nonneg (inventory t') /\ nonneg (contents out).
Proof.
  intros Hg Hn.
  destruct (get_liquid_granted t v t' out Hg) as (Hv & Hle & _ & Hc & Hk).
  pose proof (fraction_bounds (current_volume t) v Hv Hle) as [Hf0 Hf1].
  split; [unfold current_volume at 1; rewrite Hc; cbn; lra|].
  split; intros k x; destruct (Hk k) as [Ho Hi].
  - rewrite Hi. destruct (inventory t !! k) as [y|] eqn:Ey; [|discriminate].
    cbn. intros [= <-]. specialize (Hn k y Ey).
    set (f := v / (current_volume t - v + v)) in *. nra.
  - rewrite Ho. destruct (inventory t !! k) as [y|] eqn:Ey; [|discriminate].
    cbn. intros [= <-]. specialize (Hn k y Ey).
    set (f := v / (current_volume t - v + v)) in *. nra.
Qed.

(** X4. No operation sequence makes a mass negative.  If the tank starts with
    a non-negative level and non-negative masses and only Liquids with
    non-negative masses are put in, then the level, every mass in the tank
    and every mass in every Liquid taken out stay non-negative. *)
Theorem masses_stay_nonneg (ops : list op) : forall (r : run),
  sound r -> Forall puts_nonneg ops -> sound (run_ops ops r).
Proof.
  induction ops as [|o ops IH]; intros r Hr Hops; [exact Hr|].
  inversion Hops as [|o' ops' Ho Hrest]; subst.
  destruct Hr as (H0 & Hn & He).
  destruct o as [liquid|v]; cbn [run_ops].
  - destruct (put_liquid (tank r) liquid) as [t'| |] eqn:E;
      try (repeat split; assumption).
    apply IH; [|exact Hrest].
    destruct (put_liquid_sound _ _ _ E H0 Hn Ho) as [H0' Hn'].
    repeat split; assumption.
  - destruct (get_liquid (tank r) v) as [[t' out]| |] eqn:E;
      try (repeat split; assumption).
    apply IH; [|exact Hrest].
    destruct (get_liquid_sound _ _ _ _ E Hn) as (H0' & Hn' & Hout).
    split; [exact H0'|]. split; [exact Hn'|].
    cbn. constructor; assumption.
Qed.

Fixpoint total_volume (ls : list Liquid) : Q :=
  match ls with
  | [] => 0
  | l :: ls' => volume l + total_volume ls'
  end.

Lemma run_ops_volume (ops : list op) : forall (r : run),
  current_volume (tank r) <= capacity (container (tank r)) ->
  0 <= current_volume (tank r) ->
  current_volume (tank (run_ops ops r)) + total_volume (extracted (run_ops ops r))
    + total_volume (added r)
  == current_volume (tank r) + total_volume (extracted r)
    + total_volume (added (run_ops ops r)) /\
  0 <= current_volume (tank (run_ops ops r))
    <= capacity (container (tank (run_ops ops r))) /\
  capacity (container (tank (run_ops ops r))) = capacity (container (tank r)).
Proof.
  induction ops as [|o ops IH]; intros r Hcap H0.
  - cbn. split; [reflexivity|]. split; [split; assumption|reflexivity].
  - destruct o as [liquid|v]; cbn [run_ops].
    + destruct (put_liquid (tank r) liquid) as [t'| |] eqn:E;
        try (split; [reflexivity|]; split; [split; assumption|reflexivity]).
      destruct (put_liquid_granted _ _ _ E) as (Hv & Hfit & Hc & _).
      assert (Hl : current_volume t' = current_volume (tank r) + volume liquid).
      { unfold current_volume at 1. rewrite Hc. reflexivity. }
      assert (Hk : capacity (container t') = capacity (container (tank r))).
      { rewrite Hc. reflexivity. }
      destruct (IH (mkRun t' (liquid :: added r) (extracted r)))
        as (I1 & I2 & I3); cbn [tank added extracted total_volume] in *.
      * rewrite Hl, Hk. exact Hfit.
      * rewrite Hl. lra.
      * split; [rewrite Hl in I1; lra|]. split; [exact I2|].
        rewrite I3. exact Hk.
    + destruct (get_liquid (tank r) v) as [[t' out]| |] eqn:E;
        try (split; [reflexivity|]; split; [split; assumption|reflexivity]).
      destruct (get_liquid_granted _ _ _ _ E) as (Hv & Hle & Hvol & Hc & _).
      assert (Hl : current_volume t' = current_volume (tank r) - v).
      { unfold current_volume at 1. rewrite Hc. reflexivity. }
      assert (Hk : capacity (container t') = capacity (container (tank r))).
      { rewrite Hc. reflexivity. }
      destruct (IH (mkRun t' (added r) (out :: extracted r)))
        as (I1 & I2 & I3); cbn [tank added extracted total_volume] in *.
      * rewrite Hl, Hk. lra.
      * rewrite Hl. lra.
      * split; [rewrite Hl, Hvol in I1; lra|]. split; [exact I2|].
        rewrite I3. exact Hk.
Qed.

(** X5. Volume balance.  After any operation sequence on a tank whose level
    is within its bounds, the level is the initial level plus the volumes
    put in minus the volumes taken out, and it is still within the bounds
    of the unchanged capacity. *)
Theorem volume_balance (t0 : AdvancedTank) (ops : list op) :
  0 <= current_volume t0 <= capacity (container t0) ->
  let r := run_ops ops (start t0) in
  current_volume (tank r) + total_volume (extracted r)
  == current_volume t0 + total_volume (added r) /\
  0 <= current_volume (tank r) <= capacity (container t0).
Proof.
  intros [H0 Hcap]. cbv zeta.
  destruct (run_ops_volume ops (start t0)) as (I1 & I2 & I3);
    [exact Hcap|exact H0|].
  cbn [start tank added extracted total_volume] in *.
  split; [lra|]. rewrite <- I3. exact I2.
Qed.

(** X6. Round trip.  A Liquid put into a fresh tank and taken out again in
    one piece comes back with the mass it had of every substance, and the
    tank is left with none. *)
Theorem put_then_get_all (nm : string) (cap : Q) (liquid : Liquid)
    (t1 t2 : AdvancedTank) (out : Liquid) (s : string) :
  put_liquid (new_tank nm cap) liquid = Granted t1 ->
  get_liquid t1 (volume liquid) = Granted (t2, out) ->
  volume out = volume liquid /\
  mass_of s out == mass_of s liquid /\
  counter_get (inventory t2) s == 0 /\
  dom (contents out) = dom (contents liquid).
Proof.
  intros Hp Hg.
  destruct (put_liquid_granted _ _ _ Hp) as (Hv & _ & Hc1 & Hi1).
  destruct (get_liquid_granted _ _ _ _ Hg) as (_ & _ & Hvol & _ & Hk).
  assert (Hl : current_volume t1 == volume liquid).
  { unfold current_volume. rewrite Hc1. cbn. ring. }
  assert (H1 : forall k, inventory t1 !! k = (fun m => 0 + m) <$> (contents liquid !! k)).
  { intros k. rewrite Hi1, add_contents_lookup. cbn.
    destruct (contents liquid !! k); reflexivity. }
  split; [exact Hvol|].
  destruct (Hk s) as [Ho Hi]. rewrite H1 in Ho, Hi.
  unfold mass_of, counter_get. rewrite Ho, Hi.
  split; [|split].
  - destruct (contents liquid !! s) as [m|]; cbn; [|reflexivity].
    rewrite Hl. field. lra.
  - destruct (contents liquid !! s) as [m|]; cbn; [|reflexivity].
    rewrite Hl. field. lra.
  - apply set_eq. intros k. rewrite !elem_of_dom.
    destruct (Hk k) as [Ho' _]. rewrite Ho', H1.
    destruct (contents liquid !! k); cbn; split; intros [x Hx]; eauto; discriminate.
Qed.

(** A 20 L broth with two solutes, in a 100 L tank. *)
Definition broth : AdvancedTank :=
  mkTank "Bioreactor" "Filling" (mkContainer 100 20)
         (<["Glucose" := 1000]> {["Salt" := 100]}).


Lemma get_liquid_keeps_keys_witness :
  exists t' out,
    get_liquid broth 20 = Granted (t', out) /\
    dom (contents out) = dom (inventory broth) /\
    dom (inventory t') = dom (inventory broth).
Proof.
  eexists _, _. split; [vm_compute; reflexivity|].
  apply (get_liquid_keeps_keys broth 20). vm_compute. reflexivity.
Defined.

Lemma get_liquid_drains_witness :
  exists t' out,
    get_liquid broth (current_volume broth) = Granted (t', out) /\
    (exists m, contents out !! "Glucose" = Some m /\ m == 1000) /\
    (exists r, inventory t' !! "Glucose" = Some r /\ r == 0) /\
    current_volume t' == 0.
Proof.
  eexists _, _. split; [vm_compute; reflexivity|].
  apply (get_liquid_drains broth _ _ "Glucose" 1000);
    [vm_compute; reflexivity|reflexivity].
Defined.

Lemma masses_stay_nonneg_witness :
  sound (run_ops lab_process (start (new_tank "Bioreactor" 100))).
Proof.
  apply (masses_stay_nonneg lab_process).
  - split; [discriminate|]. split; [|constructor].
    intros k x H. cbn in H. rewrite lookup_empty in H. discriminate.
  - unfold lab_process, concentrate, water.
    repeat constructor; cbn [puts_nonneg contents].
    + apply map_Forall_insert_2; [discriminate|].
      apply map_Forall_insert_2; [discriminate|].
      apply map_Forall_singleton. discriminate.
    + apply map_Forall_singleton. discriminate.
Defined.

Lemma volume_balance_witness :
  0 <= current_volume broth <= capacity (container broth) /\
  let r := run_ops lab_process (start broth) in
  current_volume (tank r) + total_volume (extracted r)
  == current_volume broth + total_volume (added r) /\
  0 <= current_volume (tank r) <= capacity (container broth).
Proof.
  assert (H : 0 <= current_volume broth <= capacity (container broth)).
  { split; discriminate. }
  split; [exact H|]. exact (volume_balance broth lab_process H).
Defined.

Lemma put_then_get_all_witness :
  exists t1 t2 out,
    put_liquid (new_tank "Bioreactor" 100) concentrate = Granted t1 /\
    get_liquid t1 (volume concentrate) = Granted (t2, out) /\
    volume out = volume concentrate /\
    mass_of "Glucose" out == mass_of "Glucose" concentrate /\
    counter_get (inventory t2) "Glucose" == 0 /\
    dom (contents out) = dom (contents concentrate).
Proof.
  eexists _, _, _. split; [vm_compute; reflexivity|].
  split; [vm_compute; reflexivity|].
  eapply (put_then_get_all "Bioreactor" 100 concentrate);
    vm_compute; reflexivity.
Defined.

End MixingLaws.

(** ** engine.py, units.py, main.py: further laws of the recipe *)
Module UnitsLaws.
Import Kernel Units.
Local Open Scope proc_scope.

Arguments Qltb : simpl never.
Arguments counter_get : simpl never.
Arguments Units.accumulate : simpl never.
Arguments Qplus : simpl never.
Arguments Qmult : simpl never.
Arguments Qminus : simpl never.

(** *** The ledger's bookkeeping *)

Lemma accumulate_other (d : gmap string Q) (k j : string) (amount : Q) :
  k <> j -> accumulate d k amount !! j = d !! j.
Proof.
  intros H. unfold accumulate.
  destruct (d !! k); rewrite !lookup_insert_ne by assumption; reflexivity.
Qed.

Lemma accumulate_counter_other (d : gmap string Q) (k j : string) (amount : Q) :
  k <> j -> counter_get (accumulate d k amount) j = counter_get d j.
Proof. intros H. unfold counter_get. rewrite accumulate_other by assumption. reflexivity. Qed.

(** What the consumables loop leaves in the ledger. *)
Lemma consume_fold_inventory (cs : gmap string Q) (m : MaterialsManager)
    (k : string) :
  counter_get
    (inventory (map_fold (fun material amount m => consume m material amount) m cs))
    k
  == counter_get (inventory m) k + counter_get cs k.
Proof.
  apply (map_fold_weak_ind
           (fun (r : MaterialsManager) (c : gmap string Q) =>
              counter_get (inventory r) k
              == counter_get (inventory m) k + counter_get c k)).
  - cbn. unfold counter_get at 3. rewrite lookup_empty. cbn. ring.
  - intros i x c r Hi IH. cbn [consume inventory].
    destruct (decide (i = k)) as [->|Hne].
    + rewrite accumulate_counter. rewrite IH.
      unfold counter_get at 2 4. rewrite Hi, lookup_insert_eq. cbn. ring.
    + rewrite accumulate_counter_other by assumption. rewrite IH.
      unfold counter_get at 2 4. rewrite lookup_insert_ne by assumption.
      reflexivity.
Qed.


(** *** The unit operations in general *)

(** The world after [n] timeouts of [d] hours. *)
Fixpoint after_timeouts (n : nat) (d : Q) (w : World) : World :=
  match n with
  | O => w
  | S n' => after_timeouts n' d (set_now (now w + d) w)
  end.

Lemma repeat_timeout (n : nat) (d : Q) : forall w,
  0 <= d ->
  repeat_ n (timeout (Some d)) w = Normal tt (after_timeouts n d w).
Proof.
  induction n as [|n IH]; intros w Hd; [reflexivity|].
  cbn [repeat_ after_timeouts]. unfold bind at 1.
  unfold timeout at 1, wake_time. rewrite (Qltb_false d 0 Hd).
  apply IH. exact Hd.
Qed.

Arguments timeout : simpl never.
Arguments repeat_ : simpl never.

Lemma after_timeouts_fields (n : nat) (d : Q) : forall w,
  now (after_timeouts n d w) == now w + inject_Z (Z.of_nat n) * d /\
  printed (after_timeouts n d w) = printed w /\
  materials (after_timeouts n d w) = materials w /\
  batch (after_timeouts n d w) = batch w /\
  bioreactor (after_timeouts n d w) = bioreactor w /\
  skids (after_timeouts n d w) = skids w /\
  drawn (after_timeouts n d w) = drawn w /\
  length (wakeups (after_timeouts n d w)) = (length (wakeups w) + n)%nat.
Proof.
  induction n as [|n IH]; intros w.
  - cbn [after_timeouts]. split; [cbn; ring|].
    repeat (split; [reflexivity|]). lia.
  - cbn [after_timeouts].
    destruct (IH (set_now (now w + d) w)) as (H1 & H2 & H3 & H4 & H5 & H6 & H7 & H8).
    cbn [now printed materials batch bioreactor skids drawn wakeups set_now] in *.
    split.
    + rewrite H1, Nat2Z.inj_succ. unfold Z.succ. rewrite inject_Z_plus.
      change (inject_Z 1) with 1. ring.
    + repeat (split; [assumption|]). rewrite H8, length_app. cbn. lia.
Qed.

(** X9. Chromatography in general.  With a non-negative cycle time and a
    free slot the step completes: the clock advances by cycles times the
    cycle time (not at all for cycles <= 0), the product mass is multiplied
    by yield_step, "Purification Waste" grows by the mass lost, so that
    product plus new waste equals the product before, the batch volume is
    untouched and the slot is free again. *)
Theorem chromatography_law (config : ChromatographyConfig) (resource : pool)
    (w : World) :
  0 <= cycle_time_hours config ->
  (in_use (resource_of resource w) < slots (resource_of resource w))%nat ->
  exists w',
    Chromatography_run config resource w = Normal tt w' /\
    now w' == now w + inject_Z (Z.max 0 (cycles config)) * cycle_time_hours config /\
    product_mass_grams (batch w')
    = product_mass_grams (batch w) * yield_step config /\
    counter_get (waste (materials w')) "Purification Waste"
    = counter_get (waste (materials w)) "Purification Waste"
      + (product_mass_grams (batch w)
         - product_mass_grams (batch w) * yield_step config) /\
    product_mass_grams (batch w')
      + (counter_get (waste (materials w')) "Purification Waste"
         - counter_get (waste (materials w)) "Purification Waste")
    == product_mass_grams (batch w) /\
    volume_liters (batch w') = volume_liters (batch w) /\
    in_use (resource_of resource w') = in_use (resource_of resource w).
Proof.
  intros Ht Hfree. apply Nat.ltb_lt in Hfree.
  assert (Hn : Z.of_nat (Z.to_nat (cycles config)) = Z.max 0 (cycles config)) by lia.
  unfold Chromatography_run, with_request, bind, acquire.
  cbn [print modify].
  destruct resource; cbn [resource_of set_printed bioreactor skids] in *;
    rewrite Hfree; cbn; rewrite repeat_timeout by exact Ht; cbn.
  all: match goal with |- context [after_timeouts ?n ?d ?x] =>
         destruct (after_timeouts_fields n d x)
           as (H1 & H2 & H3 & H4 & H5 & H6 & H7 & H8);
         set (w1 := after_timeouts n d x) in *
       end.
  all: cbn in H1, H3, H4, H5, H6.
  all: eexists; split; [reflexivity|].
  all: cbn [now batch product_mass_grams volume_liters materials waste add_waste
            bioreactor skids release in_use Nat.pred].
  all: rewrite accumulate_counter, (proj1 (consume_fold_waste _ _)).
  all: rewrite H3, H4.
  all: split; [rewrite H1, Hn; reflexivity|].
  all: split; [reflexivity|]; split; [reflexivity|]; split; [ring|].
  all: split; [reflexivity|].
  - rewrite H5. reflexivity.
  - rewrite H6. reflexivity.
Qed.

(** The hours a step waits: none when the duration is unset. *)
Definition hours (d : option Q) : Q := default 0 d.

(** X8. MediaPrep.  With no duration or a non-negative one the step always
    completes: every consumable is booked in the ledger, the clock advances
    by the duration (not at all when it is unset or zero), and the batch,
    the waste, the product total and both pools are left alone. *)
Theorem MediaPrep_law (config : StepConfig) (w : World) (k : string) :
  0 <= hours (duration_hours config) ->
  exists w',
    MediaPrep_run config w = Normal tt w' /\
    now w' == now w + hours (duration_hours config) /\
    counter_get (inventory (materials w')) k
    == counter_get (inventory (materials w)) k
       + counter_get (consumables config) k /\
    waste (materials w') = waste (materials w) /\
    product_produced (materials w') = product_produced (materials w) /\
    batch w' = batch w /\
    bioreactor w' = bioreactor w /\ skids w' = skids w.
Proof.
  intros Hd. unfold MediaPrep_run, bind. cbn [print modify consume_all].
  destruct (duration_hours config) as [d|] eqn:E; cbn [truthy hours default] in *.
  - unfold is_zero. destruct (Qeq_bool d 0) eqn:Ez; cbn [negb].
    + apply Qeq_bool_iff in Ez. cbn.
      eexists. split; [reflexivity|]. cbn.
      split; [rewrite Ez; ring|].
      split; [apply consume_fold_inventory|].
      split; [apply consume_fold_waste|].
      split; [apply consume_fold_waste|]. repeat split; reflexivity.
    + unfold timeout, wake_time. rewrite (Qltb_false d 0 Hd). cbn.
      eexists. split; [reflexivity|]. cbn.
      split; [reflexivity|].
      split; [apply consume_fold_inventory|].
      split; [apply consume_fold_waste|].
      split; [apply consume_fold_waste|]. repeat split; reflexivity.
  - cbn. eexists. split; [reflexivity|]. cbn.
    split; [ring|].
    split; [apply consume_fold_inventory|].
    split; [apply consume_fold_waste|].
    split; [apply consume_fold_waste|]. repeat split; reflexivity.
Qed.

(** X10. Fermentation books its consumables and uses its time whether or not
    the batch fails.  With a non-negative duration and a free slot the run
    makes exactly one draw; it ends by the early return when the draw is
    below the risk and normally otherwise; in both cases the clock has
    advanced by the duration, every consumable is booked, the product total
    of the ledger is untouched and the slot is free again. *)
Theorem Fermentation_books_either_way (random_source : nat -> Q)
    (config : FermentationConfig) (resource : pool) (w : World) (d : Q)
    (k : string) :
  duration_hours config = Some d -> 0 <= d ->
  (in_use (resource_of resource w) < slots (resource_of resource w))%nat ->
  exists w',
    Fermentation_run random_source config resource w
    = (if Qltb (random_source (drawn w)) (contamination_risk config)
       then Returned w' else Normal tt w') /\
    drawn w' = S (drawn w) /\
    now w' = now w + d /\
    counter_get (inventory (materials w')) k
    == counter_get (inventory (materials w)) k
       + counter_get (consumables config) k /\
    product_produced (materials w') = product_produced (materials w) /\
    in_use (resource_of resource w') = in_use (resource_of resource w).
Proof.
  intros Hd Hd0 Hfree. apply Nat.ltb_lt in Hfree.
  unfold Fermentation_run, with_request, bind, acquire.
  cbn [print modify].
  destruct resource; cbn [resource_of set_printed bioreactor skids] in *;
    rewrite Hfree; cbn; rewrite Hd; unfold timeout, wake_time;
    rewrite (Qltb_false d 0 Hd0); cbn.
  all: destruct (Qltb (random_source (drawn w)) (contamination_risk config)); cbn.
  all: eexists; split; [reflexivity|]; cbn.
  all: split; [reflexivity|]; split; [reflexivity|].
  all: split; [apply consume_fold_inventory|].
  all: split; [apply consume_fold_waste|reflexivity].
Qed.

(** *** What a whole recipe preserves *)

Section Frame.
(** A relation between the world before and after, kept by every
    elementary update the unit operations make. *)
Variable R : World -> World -> Prop.
Hypothesis R_refl : forall w, R w w.
Hypothesis R_trans : forall a b c, R a b -> R b c -> R a c.
Hypothesis R_printed : forall o w, R w (set_printed o w).
Hypothesis R_consume : forall cs w,
  R w (set_materials
         (map_fold (fun material amount m => consume m material amount)
                   (materials w) cs) w).
Hypothesis R_waste : forall k a w,
  R w (set_materials (add_waste (materials w) k a) w).
Hypothesis R_now : forall d w, 0 <= d -> R w (set_now (now w + d) w).
Hypothesis R_drawn : forall n w, R w (set_drawn n w).
Hypothesis R_batch : forall b w,
  volume_liters b = volume_liters (batch w) \/ volume_liters b = 0 ->
  R w (set_batch b w).

Definition keeps {A} (c : M A) : Prop := forall w, R w (world_of (c w)).

Hypothesis R_with : forall p (body : M unit),
  steady body -> keeps body -> keeps (with_request p body).

Variable random_source : nat -> Q.

Lemma keeps_ret {A} (a : A) : keeps (ret a).
Proof. intros w. apply R_refl. Qed.

Lemma keeps_return {A} : keeps (@return_ A).
Proof. intros w. apply R_refl. Qed.

Lemma keeps_get_world : keeps get_world.
Proof. intros w. apply R_refl. Qed.

Lemma keeps_bind {A B} (c : M A) (k : A -> M B) :
  keeps c -> (forall a, keeps (k a)) -> keeps (bind c k).
Proof.
  intros Hc Hk w. unfold bind. specialize (Hc w).
  destruct (c w) as [a w1|w1|e w1|w1]; cbn [world_of] in *; try exact Hc.
  apply R_trans with w1; [exact Hc|apply Hk].
Qed.

Lemma keeps_modify (f : World -> World) :
  (forall w, R w (f w)) -> keeps (modify f).
Proof. intros H w. apply H. Qed.

Lemma keeps_print l : keeps (print l).
Proof. apply keeps_modify. intros w. apply R_printed. Qed.

Lemma keeps_consume_all cs : keeps (consume_all cs).
Proof. apply keeps_modify. intros w. apply R_consume. Qed.

Lemma keeps_timeout d : keeps (timeout d).
Proof.
  intros w. unfold timeout, wake_time. destruct d as [d|]; [|apply R_refl].
  destruct (Qltb_spec d 0) as [[-> _]|[-> H]]; cbn [world_of];
    [apply R_refl|apply R_now; exact H].
Qed.

Lemma keeps_random : keeps (random_random random_source).
Proof. intros w. apply R_drawn. Qed.

Lemma keeps_repeat n (body : M unit) : keeps body -> keeps (repeat_ n body).
Proof.
  intros Hb. induction n as [|n IH].
  - apply keeps_ret.
  - change (repeat_ (S n) body) with (bind body (fun _ => repeat_ n body)).
    apply keeps_bind; auto.
Qed.

Lemma keeps_call (body : M unit) : keeps body -> keeps (call body).
Proof.
  intros Hb w. unfold call. specialize (Hb w).
  destruct (body w); exact Hb.
Qed.

Ltac keeps_step :=
  first [ apply keeps_ret | apply keeps_return | apply keeps_get_world
        | apply keeps_print | apply keeps_consume_all | apply keeps_timeout
        | apply keeps_random
        | apply keeps_repeat
        | apply keeps_modify; intros ?;
          first [ apply R_waste
                | apply R_batch; cbn; auto ]
        | apply keeps_bind; [|intros ?] ].

Lemma keeps_MediaPrep config : keeps (MediaPrep_run config).
Proof.
  unfold MediaPrep_run. repeat keeps_step.
  destruct (truthy _); keeps_step.
Qed.

Lemma keeps_Fermentation config p :
  keeps (Fermentation_run random_source config p).
Proof.
  unfold Fermentation_run. apply keeps_bind; [apply keeps_print|intros _].
  apply R_with.
  - repeat steady_step. destruct (Qltb _ _); repeat steady_step.
  - repeat keeps_step. destruct (Qltb _ _); repeat keeps_step.
Qed.

Lemma keeps_Chromatography config p : keeps (Chromatography_run config p).
Proof.
  unfold Chromatography_run. apply keeps_bind; [apply keeps_print|intros _].
  apply R_with.
  - repeat steady_step.
  - repeat keeps_step.
Qed.

Lemma keeps_run_step s : keeps (run_step random_source s).
Proof.
  destruct s; cbn [run_step]; apply keeps_call.
  - apply keeps_Fermentation.
  - apply keeps_Chromatography.
  - apply keeps_MediaPrep.
Qed.

Lemma keeps_process_steps ss : keeps (process_steps random_source ss).
Proof.
  induction ss as [|s ss IH]; cbn [process_steps]; [apply keeps_ret|].
  apply keeps_bind; [apply keeps_run_step|intros _].
  apply keeps_bind; [apply keeps_get_world|intros w0].
  destruct (is_zero _); [apply keeps_print|exact IH].
Qed.

End Frame.

(** A relation that does not look at the pools is kept by a [with] block
    whose body keeps it. *)
Lemma with_request_keeps (R : World -> World -> Prop) :
  (forall w, R w w) ->
  (forall a b c, R a b -> R b c -> R a c) ->
  (forall p r w, R w (set_resource p r w)) ->
  forall p (body : M unit),
    steady body -> keeps R body -> keeps R (with_request p body).
Proof.
  intros Hrefl Htrans Hres p body _ Hb w. unfold with_request.
  destruct (acquire (resource_of p w)) as [r| |]; cbn [world_of].
  - specialize (Hb (set_resource p r w)).
    pose proof (Hres p r w) as H0.
    destruct (body (set_resource p r w)) as [a w1|w1|e w1|w1];
      cbn [world_of] in *.
    + eapply Htrans; [exact H0|]. eapply Htrans; [exact Hb|apply Hres].
    + eapply Htrans; [exact H0|]. eapply Htrans; [exact Hb|apply Hres].
    + eapply Htrans; [exact H0|]. eapply Htrans; [exact Hb|apply Hres].
    + eapply Htrans; [exact H0|exact Hb].
  - apply Hrefl.
  - apply Hres.
Qed.

(** A [with] block leaves the slots in use of both pools as they were. *)
Lemma with_request_pools p (body : M unit) w :
  steady body ->
  in_use (bioreactor (world_of (with_request p body w))) = in_use (bioreactor w) /\
  in_use (skids (world_of (with_request p body w))) = in_use (skids w).
Proof.
  intros Hb.
  pose proof (with_request_in_use p body w Hb) as Hsame.
  destruct p; cbn [resource_of] in Hsame; (split; [|]); try exact Hsame.
  - unfold with_request, acquire. cbn [resource_of].
    destruct (in_use (bioreactor w) <? slots (bioreactor w))%nat; [|reflexivity].
    match goal with |- context [body ?x] =>
      destruct (Hb x) as (_ & H2 & _); destruct (body x); cbn in *;
        rewrite ?H2; reflexivity
    end.
  - unfold with_request, acquire. cbn [resource_of].
    destruct (in_use (skids w) <? slots (skids w))%nat; [|reflexivity].
    match goal with |- context [body ?x] =>
      destruct (Hb x) as (H1 & _ & _); destruct (body x); cbn in *;
        rewrite ?H1; reflexivity
    end.
Qed.

Lemma process_steps_not_returned (random_source : nat -> Q) (ss : list StepUnion) :
  forall w w', process_steps random_source ss w <> Returned w'.
Proof.
  induction ss as [|s ss IH]; intros w w'; cbn [process_steps]; [discriminate|].
  unfold bind.
  assert (Hs : forall w1, run_step random_source s w <> Returned w1).
  { intros w1. destruct s; cbn [run_step]; unfold call;
      match goal with |- context [match ?x with _ => _ end] => destruct x end;
      discriminate. }
  destruct (run_step random_source s w) as [[] w1|w1|e w1|w1];
    try discriminate; [|exfalso; exact (Hs w1 eq_refl)].
  cbn. destruct (is_zero _); [discriminate|apply IH].
Qed.

(** X11. The clock never runs backwards during a recipe, whatever its steps
    and however it ends (a negative duration raises instead of rewinding). *)
Theorem clock_never_runs_back (random_source : nat -> Q) (config : RecipeConfig)
    (w : World) :
  now w <= now (world_of (process_flow random_source config w)).
Proof.
  assert (H : keeps (fun a b => now a <= now b)
                    (process_steps random_source (steps config))).
  { apply keeps_process_steps.
    - intros a. apply Qle_refl.
    - intros a b c. apply Qle_trans.
    - intros o a. apply Qle_refl.
    - intros cs a. apply Qle_refl.
    - intros k x a. apply Qle_refl.
    - intros d a Hd. cbn. lra.
    - intros n a. apply Qle_refl.
    - intros b a _. apply Qle_refl.
    - apply with_request_keeps.
      + intros a. apply Qle_refl.
      + intros a b c. apply Qle_trans.
      + intros p r a. destruct p; apply Qle_refl. }
  unfold process_flow, bind. specialize (H w).
  destruct (process_steps random_source (steps config) w); exact H.
Qed.

(** X12. The product total of a run.  When [run_simulation] completes, the
    ledger's product total is the product mass the batch ends with; when
    the process raises or stays suspended nothing is recorded. *)
Theorem recorded_product (random_source : nat -> Q) (config : RecipeConfig) :
  match run_simulation random_source config with
  | Normal _ w' =>
      product_produced (materials w') == product_mass_grams (batch w')
  | r => product_produced (materials (world_of r)) = 0
  end.
Proof.
  assert (H : keeps (fun a b => product_produced (materials b)
                                = product_produced (materials a))
                    (process_steps random_source (steps config))).
  { apply keeps_process_steps.
    - reflexivity.
    - intros a b c H1 H2. congruence.
    - reflexivity.
    - intros cs a. apply consume_fold_waste.
    - reflexivity.
    - reflexivity.
    - reflexivity.
    - reflexivity.
    - apply with_request_keeps.
      + reflexivity.
      + intros a b c H1 H2. congruence.
      + intros p r a. destruct p; reflexivity. }
  specialize (H (initial_world config)). cbn beta in H.
  pose proof (process_steps_not_returned random_source (steps config)
                (initial_world config)) as Hnr.
  unfold run_simulation, call, process_flow, bind.
  destruct (process_steps random_source (steps config) (initial_world config))
    as [[] w1|w1|e w1|w1]; cbn [world_of] in *.
  - cbn. rewrite H. cbn. ring.
  - exfalso. exact (Hnr w1 eq_refl).
  - rewrite H. reflexivity.
  - rewrite H. reflexivity.
Qed.

(** X13. A recipe leaves both pools as it found them, however it ends. *)
Theorem recipe_frees_pools (random_source : nat -> Q) (config : RecipeConfig)
    (w : World) :
  in_use (bioreactor (world_of (process_flow random_source config w)))
  = in_use (bioreactor w) /\
  in_use (skids (world_of (process_flow random_source config w)))
  = in_use (skids w).
Proof.
  assert (H : keeps (fun a b => in_use (bioreactor b) = in_use (bioreactor a) /\
                                in_use (skids b) = in_use (skids a))
                    (process_steps random_source (steps config))).
  { apply keeps_process_steps; try (intros; split; reflexivity).
    - intros a b c [H1 H2] [H3 H4]. split; congruence.
    - intros p body Hs _ a. apply with_request_pools. exact Hs. }
  unfold process_flow, bind. specialize (H w).
  destruct (process_steps random_source (steps config) w); exact H.
Qed.

(** X14. An empty batch is treated like a failed one: on a batch of volume 0
    the recipe runs its first step and stops, whatever the steps are. *)
Theorem empty_batch_runs_one_step (random_source : nat -> Q) (s : StepUnion)
    (rest : list StepUnion) (w : World) :
  volume_liters (batch w) == 0 ->
  process_steps random_source (s :: rest) w
  = process_steps random_source [s] w.
Proof.
  intros Hv.
  assert (H : keeps (fun a b => volume_liters (batch b) = volume_liters (batch a)
                                \/ volume_liters (batch b) = 0)
                    (run_step random_source s)).
  { apply keeps_run_step.
    - intros a. left. reflexivity.
    - intros a b c [H1|H1] [H2|H2]; [left|right|right|right]; congruence.
    - intros o a. left. reflexivity.
    - intros cs a. left. reflexivity.
    - intros k x a. left. reflexivity.
    - intros d a _. left. reflexivity.
    - intros n a. left. reflexivity.
    - intros b a Hb. exact Hb.
    - apply with_request_keeps.
      + intros a. left. reflexivity.
      + intros a b c [H1|H1] [H2|H2]; [left|right|right|right]; congruence.
      + intros p r a. left. destruct p; reflexivity. }
  specialize (H w). cbn beta in H.
  cbn [process_steps]. unfold bind.
  destruct (run_step random_source s w) as [[] w1|w1|e w1|w1]; try reflexivity.
  cbn [world_of get_world] in *.
  assert (Hz : is_zero (volume_liters (batch w1)) = true).
  { unfold is_zero. apply Qeq_bool_iff. destruct H as [->| ->]; [exact Hv|reflexivity]. }
  rewrite Hz. reflexivity.
Qed.

(** X15. A contaminated fermentation ends the recipe: with a non-negative
    duration, a free bioreactor and a draw below the risk, the steps after
    the fermentation never run, the batch is left at volume 0 and no further
    draw is made. *)
Theorem contamination_stops_recipe (random_source : nat -> Q)
    (config : FermentationConfig) (rest : list StepUnion) (w : World) (d : Q) :
  duration_hours config = Some d -> 0 <= d ->
  (in_use (bioreactor w) < slots (bioreactor w))%nat ->
  random_source (drawn w) < contamination_risk config ->
  exists w',
    process_steps random_source (FermentationStep config :: rest) w
    = Normal tt w' /\
    process_steps random_source [FermentationStep config] w = Normal tt w' /\
    volume_liters (batch w') = 0 /\
    drawn w' = S (drawn w) /\
    last (printed w') = Some (now w + d, BatchStopped).
Proof.
  intros Hd Hd0 Hfree Hdraw. apply Nat.ltb_lt in Hfree.
  cbn [process_steps run_step].
  unfold call, Fermentation_run, with_request, bind, acquire.
  cbn [print modify resource_of set_printed bioreactor].
  rewrite Hfree. cbn. rewrite Hd. unfold timeout, wake_time.
  rewrite (Qltb_false d 0 Hd0). cbn.
  rewrite (Qltb_true _ _ Hdraw). cbn.
  eexists. split; [reflexivity|]. split; [reflexivity|]. cbn.
  split; [reflexivity|]. split; [reflexivity|].
  apply last_snoc.
Qed.

(** Concrete steps for the instances below. *)
Definition buffer_prep : StepConfig :=
  mkStepConfig "Buffer prep" (Some 2) (<["Water" := 100]> {["Salt" := 5]}) None.
Definition no_cycles : ChromatographyConfig :=
  mkChromatographyConfig (mkStepConfig "Polish" None ∅ None) 2 (-1) (1 # 2).
Definition risky : FermentationConfig :=
  mkFermentationConfig (mkStepConfig "Fermentation" (Some 48) {["Glucose" := 50]} None)
                       (1 # 2) 2.
Definition empty_world : World :=
  initial_world (mkRecipeConfig (mkResourceConfig 0 1) []).

Lemma chromatography_law_witness :
  exists w',
    Chromatography_run no_cycles Skids loaded_world = Normal tt w' /\
    now w' == now loaded_world /\
    product_mass_grams (batch w') == 500.
Proof.
  destruct (chromatography_law no_cycles Skids loaded_world)
    as (w' & H1 & H2 & H3 & _).
  - discriminate.
  - vm_compute. lia.
  - exists w'. split; [exact H1|]. split.
    + rewrite H2. reflexivity.
    + rewrite H3. reflexivity.
Defined.

Lemma MediaPrep_law_witness :
  exists w',
    MediaPrep_run buffer_prep fresh_world = Normal tt w' /\
    now w' == 2 /\
    counter_get (inventory (materials w')) "Water" == 100 /\
    batch w' = batch fresh_world.
Proof.
  destruct (MediaPrep_law buffer_prep fresh_world "Water")
    as (w' & H1 & H2 & H3 & _ & _ & H6 & _).
  - discriminate.
  - exists w'. split; [exact H1|]. split; [rewrite H2; reflexivity|].
    split; [rewrite H3; reflexivity|exact H6].
Defined.

Lemma Fermentation_books_either_way_witness :
  exists w',
    Fermentation_run unlucky risky Bioreactor fresh_world = Returned w' /\
    now w' = now fresh_world + 48 /\
    counter_get (inventory (materials w')) "Glucose" == 50.
Proof.
  destruct (Fermentation_books_either_way unlucky risky Bioreactor fresh_world 48
              "Glucose")
    as (w' & H1 & _ & H3 & H4 & _).
  - reflexivity.
  - discriminate.
  - vm_compute. lia.
  - exists w'. split; [exact H1|]. split; [exact H3|].
    rewrite H4. reflexivity.
Defined.

Lemma empty_batch_runs_one_step_witness :
  process_steps unlucky
    [MediaPrepStep buffer_prep; FermentationStep risky;
     ChromatographyStep no_cycles] empty_world
  = process_steps unlucky [MediaPrepStep buffer_prep] empty_world.
Proof.
  apply (empty_batch_runs_one_step unlucky (MediaPrepStep buffer_prep)).
  reflexivity.
Defined.

Lemma contamination_stops_recipe_witness :
  exists w',
    process_steps unlucky
      [FermentationStep risky; ChromatographyStep no_cycles] fresh_world
    = Normal tt w' /\
    volume_liters (batch w') = 0 /\
    drawn w' = 1%nat.
Proof.
  destruct (contamination_stops_recipe unlucky risky
              [ChromatographyStep no_cycles] fresh_world 48)
    as (w' & H1 & _ & H3 & H4 & _).
  - reflexivity.
  - discriminate.
  - vm_compute. lia.
  - reflexivity.
  - exists w'. split; [exact H1|]. split; [exact H3|exact H4].
Defined.

End UnitsLaws.

(** ** engine.py: further laws of the shared ledger *)
Module EngineLaws.
Import Kernel Units Engine.

Arguments Qltb : simpl never.
Arguments counter_get : simpl never.
Arguments Units.accumulate : simpl never.
Arguments Qplus : simpl never.
Arguments Qmult : simpl never.
Arguments Qminus : simpl never.

(** What happens to the interpreter state over time: ledger traffic, new
    unit operations and new engines, in any order. *)
Inductive event : Type :=
| Ledger (o : ledger_op)
| NewEngine.

Definition apply_event (ev : event) (h : Heap) : Heap :=
  match ev with
  | Ledger o => apply_op o h
  | NewEngine => snd (SimulationEngine_init h)
  end.

Definition apply_events (evs : list event) (h : Heap) : Heap :=
  foldl (fun h ev => apply_event ev h) h evs.

(** One ledger object, and the class attribute points to it. *)
Definition single_ledger (l : loc) (h : Heap) : Prop :=
  MaterialsManager_instance h = Some l /\ dom (objects h) = {[ l ]}.

Lemma apply_op_single (o : ledger_op) (l : loc) (h : Heap) :
  single_ledger l h -> single_ledger l (apply_op o h).
Proof.
  intros [Hi Hd]. destruct o; cbn [apply_op].
  - split; [exact Hi|]. cbn. rewrite dom_alter_L. exact Hd.
  - split; [exact Hi|]. cbn. rewrite dom_alter_L. exact Hd.
  - split; [exact Hi|]. cbn. rewrite dom_alter_L. exact Hd.
  - unfold UnitOperation_materials. rewrite (new_keeps_instance h l Hi).
    split; assumption.
Qed.

Lemma init_single (l : loc) (h : Heap) :
  single_ledger l h ->
  single_ledger l (snd (SimulationEngine_init h)) /\
  materials_manager (fst (SimulationEngine_init h)) = l.
Proof.
  intros [Hi Hd]. unfold SimulationEngine_init.
  rewrite (new_keeps_instance h l Hi).
  cbn [snd fst materials_manager].
  split; [|reflexivity]. unfold reset_at. split; [exact Hi|].
  cbn [objects]. rewrite dom_insert_L, Hd. apply union_idemp_L.
Qed.

Lemma first_init_single :
  single_ledger (materials_manager (fst (SimulationEngine_init empty_heap)))
                (snd (SimulationEngine_init empty_heap)).
Proof. split; [reflexivity|]. vm_compute. reflexivity. Qed.

(** X16. The ledger is never duplicated.  After the first engine is built,
    whatever ledger traffic follows and however many unit operations and
    engines are constructed, there is exactly one ledger object and every
    new engine and unit operation refers to it. *)
Theorem ledger_never_duplicated (evs : list event) :
  let e0 := fst (SimulationEngine_init empty_heap) in
  let h := apply_events evs (snd (SimulationEngine_init empty_heap)) in
  dom (objects h) = {[ materials_manager e0 ]} /\
  materials_manager (fst (SimulationEngine_init h)) = materials_manager e0 /\
  fst (UnitOperation_materials h) = materials_manager e0.
Proof.
  cbv zeta.
  set (l := materials_manager (fst (SimulationEngine_init empty_heap))).
  assert (H : single_ledger l
                (apply_events evs (snd (SimulationEngine_init empty_heap)))).
  { pose proof first_init_single as H0. fold l in H0.
    revert H0. generalize (snd (SimulationEngine_init empty_heap)).
    induction evs as [|ev evs IH]; intros h H0; [exact H0|].
    cbn. apply IH. destruct ev; cbn [apply_event].
    - apply apply_op_single. exact H0.
    - apply init_single. exact H0. }
  split; [apply H|]. split; [apply init_single; exact H|].
  unfold UnitOperation_materials.
  destruct H as [Hi _]. rewrite (new_keeps_instance _ l Hi). reflexivity.
Qed.

(** X17. Constructing a unit operation never resets the ledger: it gets the
    engine's ledger with everything booked so far, and changes nothing. *)
Theorem unit_operation_keeps_bookings (h : Heap) (os : list ledger_op) :
  let e := fst (SimulationEngine_init h) in
  let h' := apply_ops os (snd (SimulationEngine_init h)) in
  UnitOperation_materials h' = (materials_manager e, h').
Proof.
  cbv zeta. unfold UnitOperation_materials.
  apply new_keeps_instance. apply apply_ops_instance. apply init_instance.
Qed.

(** X18. What one engine books the other reads.  Waste booked through the
    ledger reference of one engine is read back through the reference of an
    engine constructed earlier. *)
Theorem bookings_are_shared (h : Heap) (waste_type : string) (amount : Q) :
  let e1 := fst (SimulationEngine_init h) in
  let h1 := snd (SimulationEngine_init h) in
  let e2 := fst (SimulationEngine_init h1) in
  let h2 := add_waste_at (materials_manager e2) waste_type amount
                         (snd (SimulationEngine_init h1)) in
  (waste <$> ledger_of e1 h2) = Some {[ waste_type := 0 + amount ]}.
Proof.
  cbv zeta.
  pose proof (init_instance h) as Hi.
  assert (He : materials_manager (fst (SimulationEngine_init
                 (snd (SimulationEngine_init h))))
               = materials_manager (fst (SimulationEngine_init h))).
  { unfold SimulationEngine_init at 1.
    rewrite (new_keeps_instance _ _ Hi). reflexivity. }
  rewrite He. unfold ledger_of, add_waste_at. cbn [objects].
  rewrite lookup_alter_eq.
  pose proof (init_resets (snd (SimulationEngine_init h))) as Hr.
  unfold ledger_of in Hr. rewrite He in Hr. rewrite Hr. cbn.
  f_equal. unfold accumulate. rewrite lookup_empty.
  rewrite insert_insert_eq. unfold counter_get.
  rewrite lookup_insert_eq. cbn. reflexivity.
Qed.

End EngineLaws.

(** ** first_classy_sim.py: further laws of filling and emptying *)
Module ClassySimLaws.
Import Kernel ClassySim.

Arguments Qltb : simpl never.
Arguments counter_get : simpl never.
Arguments Units.accumulate : simpl never.
Arguments Qplus : simpl never.
Arguments Qmult : simpl never.
Arguments Qminus : simpl never.

Definition state_of (e : ending) : State :=
  match e with
  | Finished s | Failed _ s | Stuck s | OutOfFuel s => s
  end.

Lemma steps_of_nonneg (n : nat) (q : Q) : 0 <= q -> 0 <= steps_of n q.
Proof. intros H. induction n; cbn [steps_of]; lra. Qed.

Lemma Qmin_cases (a b : Q) :
  (Qmin a b == a /\ a <= b) \/ (Qmin a b == b /\ b <= a).
Proof.
  destruct (Q.min_spec a b) as [[H1 H2]|[H1 H2]].
  - left. split; [exact H2|lra].
  - right. split; [exact H2|lra].
Qed.

(** [fill_to_level]'s loop for a target within the capacity: enough fuel
    ends the loop with the target reached and missed by less than a step. *)
Lemma fill_loop_bound (n : nat) :
  forall (target_level rate : Q) (s : State),
    0 <= dt (tank s) ->
    0 < rate * dt (tank s) ->
    0 <= tank_level s ->
    tank_level s <= target_level ->
    target_level <= capacity (container (tank s)) ->
    target_level - tank_level s <= steps_of n (rate * dt (tank s)) ->
    exists s',
      fill_loop (S n) target_level rate s = Finished s' /\
      target_level <= tank_level s' /\
      tank_level s' < target_level + rate * dt (tank s) /\
      tank_level s' <= capacity (container (tank s)) /\
      status (tank s') = status (tank s).
Proof.
  induction n as [|n IH]; intros target rate s Hdt Hq H0 Hle Hcap Hgap.
  - cbn [steps_of] in Hgap. cbn [fill_loop].
    rewrite Qltb_false by lra.
    exists s. split; [reflexivity|]. repeat split; try reflexivity; lra.
  - cbn [fill_loop].
    destruct (Qltb_spec (tank_level s) target) as [[-> Hlt]|[-> Hge]].
    + unfold wake_time. rewrite (Qltb_false _ _ Hdt).
      cbv zeta. unfold tank_level in *.
      set (c := container (tank s)) in *.
      set (a := Qmin (rate * dt (tank s)) (capacity c - level c)).
      pose proof (Qmin_cases (rate * dt (tank s)) (capacity c - level c)) as Ha.
      fold a in Ha.
      unfold put.
      rewrite (Qle_bool_false a 0) by (destruct Ha as [[-> ?]|[-> ?]]; lra).
      rewrite (Qltb_false (capacity c) a) by (destruct Ha as [[-> ?]|[-> ?]]; lra).
      rewrite (Qle_bool_true (level c + a) (capacity c))
        by (destruct Ha as [[-> ?]|[-> ?]]; lra).
      destruct (Qlt_le_dec (level c + a) target) as [Hbelow|Habove].
      * destruct (IH target rate
                   (after_move (now s + dt (tank s))
                               (mkContainer (capacity c) (level c + a)) a s))
          as (s' & H1 & H2 & H3 & H4 & H5).
        -- exact Hdt.
        -- exact Hq.
        -- cbn. destruct Ha as [[-> ?]|[-> ?]]; lra.
        -- cbn. lra.
        -- exact Hcap.
        -- cbn. cbn [steps_of] in Hgap. cbn in Hbelow.
           destruct Ha as [[Ha ?]|[Ha ?]]; rewrite Ha in *; lra.
        -- exists s'. split; [exact H1|]. cbn in H3, H4, H5.
           repeat split; assumption.
      * destruct n as [|n'].
        -- cbn [fill_loop]. rewrite Qltb_false by (cbn; exact Habove).
           eexists. split; [reflexivity|]. cbn.
           split; [exact Habove|].
           split; [destruct Ha as [[-> ?]|[-> ?]]; lra|].
           split; [destruct Ha as [[-> ?]|[-> ?]]; lra|reflexivity].
        -- cbn [fill_loop]. rewrite Qltb_false by (cbn; exact Habove).
           eexists. split; [reflexivity|]. cbn.
           split; [exact Habove|].
           split; [destruct Ha as [[-> ?]|[-> ?]]; lra|].
           split; [destruct Ha as [[-> ?]|[-> ?]]; lra|reflexivity].
    + exists s. split; [reflexivity|]. unfold tank_level in *.
      repeat split; try reflexivity; lra.
Qed.

(** X20. [fill_to_level] never overfills.  For a target within the capacity
    and a level below it, enough fuel ends the call with status Idle and a
    level that has reached the target, is within the capacity, and is past
    the target by less than one step [rate * dt]. *)
Theorem fill_to_level_bound (n : nat) (target_level rate : Q) (s : State) :
  0 <= dt (tank s) ->
  0 < rate * dt (tank s) ->
  0 <= tank_level s ->
  tank_level s <= target_level ->
  target_level <= capacity (container (tank s)) ->
  target_level - tank_level s <= steps_of n (rate * dt (tank s)) ->
  exists s',
    fill_to_level (S n) target_level rate s = Finished s' /\
    target_level <= tank_level s' /\
    tank_level s' < target_level + rate * dt (tank s) /\
    tank_level s' <= capacity (container (tank s)) /\
    status (tank s') = "Idle".
Proof.
  intros Hdt Hq H0 Hle Hcap Hgap. unfold fill_to_level.
  destruct (fill_loop_bound n target_level rate (set_status "Filling" s))
    as (s' & H1 & H2 & H3 & H4 & _); try assumption.
  rewrite H1. exists (set_status "Idle" s').
  split; [reflexivity|]. repeat split; assumption.
Qed.

(** X21. When the target is the capacity, as in the script, [fill_to_level]
    stops exactly at it. *)
Theorem fill_to_level_reaches_capacity (n : nat) (rate : Q) (s : State) :
  0 <= dt (tank s) ->
  0 < rate * dt (tank s) ->
  0 <= tank_level s ->
  tank_level s <= capacity (container (tank s)) ->
  capacity (container (tank s)) - tank_level s
    <= steps_of n (rate * dt (tank s)) ->
  exists s',
    fill_to_level (S n) (capacity (container (tank s))) rate s = Finished s' /\
    tank_level s' == capacity (container (tank s)) /\
    status (tank s') = "Idle".
Proof.
  intros Hdt Hq H0 Hle Hgap. unfold fill_to_level.
  destruct (fill_loop_reaches_capacity n rate (set_status "Filling" s))
    as (s' & H1 & H2 & _); try assumption.
  change (capacity (container (tank (set_status "Filling" s))))
    with (capacity (container (tank s))) in H1, H2.
  rewrite H1. exists (set_status "Idle" s').
  split; [reflexivity|]. split; [exact H2|reflexivity].
Qed.

Lemma fill_loop_above_capacity (n : nat) :
  forall (target_level rate : Q) (s : State),
    0 <= dt (tank s) ->
    0 < rate * dt (tank s) ->
    0 <= tank_level s ->
    tank_level s <= capacity (container (tank s)) ->
    capacity (container (tank s)) < target_level ->
    capacity (container (tank s)) - tank_level s
      <= steps_of n (rate * dt (tank s)) ->
    exists s',
      fill_loop (S n) target_level rate s = Failed ValueError s' /\
      tank_level s' == capacity (container (tank s)) /\
      status (tank s') = status (tank s).
Proof.
  induction n as [|n IH]; intros target rate s Hdt Hq H0 Hle Hcap Hgap.
  - cbn [steps_of] in Hgap. cbn [fill_loop].
    rewrite Qltb_true by (unfold tank_level in *; lra).
    unfold wake_time. rewrite (Qltb_false _ _ Hdt). cbv zeta.
    unfold tank_level in *. set (c := container (tank s)) in *.
    set (a := Qmin (rate * dt (tank s)) (capacity c - level c)).
    pose proof (Qmin_cases (rate * dt (tank s)) (capacity c - level c)) as Ha.
    fold a in Ha.
    unfold put.
    rewrite (Qle_bool_true a 0) by (destruct Ha as [[-> ?]|[-> ?]]; lra).
    eexists. split; [reflexivity|]. clear Ha. subst a c. cbn.
    split; [lra|reflexivity].
  - cbn [fill_loop].
    rewrite Qltb_true by (unfold tank_level in *; lra).
    unfold wake_time. rewrite (Qltb_false _ _ Hdt). cbv zeta.
    unfold tank_level in *. set (c := container (tank s)) in *.
    set (a := Qmin (rate * dt (tank s)) (capacity c - level c)).
    pose proof (Qmin_cases (rate * dt (tank s)) (capacity c - level c)) as Ha.
    fold a in Ha.
    destruct (Qlt_le_dec (level c) (capacity c)) as [Hroom|Hfull].
    + unfold put.
      rewrite (Qle_bool_false a 0) by (destruct Ha as [[-> ?]|[-> ?]]; lra).
      rewrite (Qltb_false (capacity c) a) by (destruct Ha as [[-> ?]|[-> ?]]; lra).
      rewrite (Qle_bool_true (level c + a) (capacity c))
        by (destruct Ha as [[-> ?]|[-> ?]]; lra).
      destruct (IH target rate
                   (after_move (now s + dt (tank s))
                               (mkContainer (capacity c) (level c + a)) a s))
        as (s' & H1 & H2 & H3).
      * exact Hdt.
      * exact Hq.
      * cbn. destruct Ha as [[-> ?]|[-> ?]]; lra.
      * cbn. destruct Ha as [[-> ?]|[-> ?]]; lra.
      * exact Hcap.
      * cbn. cbn [steps_of] in Hgap. destruct Ha as [[-> ?]|[-> ?]]; [lra|].
        pose proof (steps_of_nonneg n (rate * dt (tank s))). lra.
      * exists s'. split; [exact H1|]. split; [exact H2|exact H3].
    + unfold put.
      rewrite (Qle_bool_true a 0) by (destruct Ha as [[-> ?]|[-> ?]]; lra).
      eexists. split; [reflexivity|]. clear Ha. subst a c. cbn.
    split; [lra|reflexivity].
Qed.

(** X22. A target above the capacity cannot be met: [fill_to_level] fills the
    tank to the brim, then its next request of zero litres is refused with
    ValueError, and the status is left at Filling. *)
Theorem fill_to_level_above_capacity (n : nat) (target_level rate : Q)
    (s : State) :
  0 <= dt (tank s) ->
  0 < rate * dt (tank s) ->
  0 <= tank_level s ->
  tank_level s <= capacity (container (tank s)) ->
  capacity (container (tank s)) < target_level ->
  capacity (container (tank s)) - tank_level s
    <= steps_of n (rate * dt (tank s)) ->
  exists s',
    fill_to_level (S n) target_level rate s = Failed ValueError s' /\
    tank_level s' == capacity (container (tank s)) /\
    status (tank s') = "Filling".
Proof.
  intros Hdt Hq H0 Hle Hcap Hgap. unfold fill_to_level.
  destruct (fill_loop_above_capacity n target_level rate (set_status "Filling" s))
    as (s' & H1 & H2 & H3); try assumption.
  rewrite H1. exists s'. split; [reflexivity|]. split; [exact H2|exact H3].
Qed.

(** X23. What a finished [empty_to_level] loop has done, for any fuel: it
    appended its moves to the log, each of them positive and at most
    [rate * dt], the clock advanced by [dt] per move, the level dropped by
    what was moved, and the time step and the capacity are unchanged. *)
Theorem empty_loop_accounts (fuel : nat) :
  forall (target_level rate : Q) (s s' : State),
    empty_loop fuel target_level rate s = Finished s' ->
    exists ks,
      moved s' = moved s ++ ks /\
      Forall (fun a => 0 < a /\ a <= rate * dt (tank s)) ks /\
      now s' == now s + steps_of (length ks) (dt (tank s)) /\
      tank_level s' == tank_level s - sum_moves ks /\
      tank_level s' <= target_level /\
      dt (tank s') = dt (tank s) /\
      capacity (container (tank s')) = capacity (container (tank s)).
Proof.
  induction fuel as [|fuel IH]; intros target rate s s' H; [discriminate|].
  cbn [empty_loop] in H.
  destruct (Qltb_spec target (tank_level s)) as [[E Hlt]|[E Hge]];
    rewrite E in H.
  - unfold wake_time in H. destruct (Qltb (dt (tank s)) 0); [discriminate|].
    cbv zeta in H.
    set (c := container (tank s)) in *.
    set (a := Qmin (rate * dt (tank s)) (level c - target)) in *.
    pose proof (Qmin_cases (rate * dt (tank s)) (level c - target)) as Ha.
    fold a in Ha.
    unfold get in H.
    destruct (Qle_bool a 0) eqn:E0; [discriminate|].
    destruct (Qltb (capacity c) a); [discriminate|].
    destruct (Qle_bool a (level c)); [|discriminate].
    destruct (IH target rate _ s' H) as (ks & K1 & K2 & K3 & K4 & K5 & K6 & K7).
    cbn in K1, K2, K3, K4, K6, K7.
    exists (a :: ks). split; [rewrite K1, <- app_assoc; reflexivity|].
    assert (Hpos : 0 < a).
    { destruct (Qlt_le_dec 0 a) as [Hp|Hp]; [exact Hp|].
      apply Qle_bool_iff in Hp. congruence. }
    split.
    { constructor; [|exact K2]. split; [exact Hpos|].
      destruct Ha as [[-> ?]|[-> ?]]; lra. }
    split; [rewrite K3; cbn [length steps_of]; ring|].
    split; [rewrite K4; cbn [sum_moves]; unfold tank_level; fold c; ring|].
    split; [exact K5|]. split; assumption.
  - injection H as <-. exists []. rewrite app_nil_r.
    split; [reflexivity|]. split; [constructor|].
    split; [cbn; ring|]. split; [cbn; ring|].
    split; [exact Hge|]. split; reflexivity.
Qed.

(** X24. The same account for a finished [fill_to_level] loop: the level rose
    by what was moved and never passed the capacity it did not pass at the
    start. *)
Theorem fill_loop_accounts (fuel : nat) :
  forall (target_level rate : Q) (s s' : State),
    fill_loop fuel target_level rate s = Finished s' ->
    exists ks,
      moved s' = moved s ++ ks /\
      Forall (fun a => 0 < a /\ a <= rate * dt (tank s)) ks /\
      now s' == now s + steps_of (length ks) (dt (tank s)) /\
      tank_level s' == tank_level s + sum_moves ks /\
      target_level <= tank_level s' /\
      (tank_level s <= capacity (container (tank s)) ->
       tank_level s' <= capacity (container (tank s))) /\
      dt (tank s') = dt (tank s).
Proof.
  induction fuel as [|fuel IH]; intros target rate s s' H; [discriminate|].
  cbn [fill_loop] in H.
  destruct (Qltb_spec (tank_level s) target) as [[E Hlt]|[E Hge]];
    rewrite E in H.
  - unfold wake_time in H. destruct (Qltb (dt (tank s)) 0); [discriminate|].
    cbv zeta in H.
    set (c := container (tank s)) in *.
    set (a := Qmin (rate * dt (tank s)) (capacity c - level c)) in *.
    pose proof (Qmin_cases (rate * dt (tank s)) (capacity c - level c)) as Ha.
    fold a in Ha.
    unfold put in H.
    destruct (Qle_bool a 0) eqn:E0; [discriminate|].
    destruct (Qltb (capacity c) a); [discriminate|].
    destruct (Qle_bool (level c + a) (capacity c)) eqn:E1; [|discriminate].
    apply Qle_bool_iff in E1.
    destruct (IH target rate _ s' H) as (ks & K1 & K2 & K3 & K4 & K5 & K6 & K7).
    cbn in K1, K2, K3, K4, K6, K7.
    exists (a :: ks). split; [rewrite K1, <- app_assoc; reflexivity|].
    assert (Hpos : 0 < a).
    { destruct (Qlt_le_dec 0 a) as [Hp|Hp]; [exact Hp|].
      apply Qle_bool_iff in Hp. congruence. }
    split.
    { constructor; [|exact K2]. split; [exact Hpos|].
      destruct Ha as [[-> ?]|[-> ?]]; lra. }
    split; [rewrite K3; cbn [length steps_of]; ring|].
    split; [rewrite K4; cbn [sum_moves]; unfold tank_level; fold c; ring|].
    split; [exact K5|]. split; [|exact K7].
    intros _. apply K6. exact E1.
  - injection H as <-. exists []. rewrite app_nil_r.
    split; [reflexivity|]. split; [constructor|].
    split; [cbn; ring|]. split; [cbn; ring|].
    split; [exact Hge|]. split; [tauto|reflexivity].
Qed.

(** The loops change neither the time step nor the capacity. *)
Lemma fill_loop_frame (fuel : nat) : forall (target_level rate : Q) (s : State),
  dt (tank (state_of (fill_loop fuel target_level rate s))) = dt (tank s) /\
  capacity (container (tank (state_of (fill_loop fuel target_level rate s))))
  = capacity (container (tank s)).
Proof.
  induction fuel as [|fuel IH]; intros target rate s; [split; reflexivity|].
  cbn [fill_loop]. destruct (Qltb _ target); [|split; reflexivity].
  unfold wake_time. destruct (Qltb (dt (tank s)) 0); [split; reflexivity|].
  cbv zeta. unfold put.
  destruct (Qle_bool _ 0); [split; reflexivity|].
  destruct (Qltb _ _); [split; reflexivity|].
  destruct (Qle_bool _ _); [|split; reflexivity].
  destruct (IH target rate
              (after_move (now s + dt (tank s))
                 (mkContainer (capacity (container (tank s)))
                    (level (container (tank s))
                     + Qmin (rate * dt (tank s))
                         (capacity (container (tank s))
                          - level (container (tank s)))))
                 (Qmin (rate * dt (tank s))
                    (capacity (container (tank s)) - level (container (tank s))))
                 s)) as [H1 H2].
  split; [exact H1|exact H2].
Qed.

(** [main_process]: fill to 100 L at 8 L/h, hold for 4 hours, empty to 50 L
    at 6 L/h. *)
Definition main_process (fuel : nat) (s : State) : ending :=
  match fill_to_level fuel 100 8 s with
  | Finished s1 =>
      match wake_time (now s1) 4 with
      | Granted t => empty_to_level fuel 50 6 (at_time t s1)
      | Rejected e => Failed e s1
      | Suspended => Stuck s1
      end
  | r => r
  end.

(** X25. The script's process on its 100 L tank.  Whatever the positive time
    step and the starting level, with enough fuel for both loops the
    process ends with the tank at 50 L and idle. *)
Theorem main_process_ends (n : nat) (s : State) :
  capacity (container (tank s)) == 100 ->
  0 <= tank_level s <= 100 ->
  0 < dt (tank s) ->
  100 - tank_level s <= steps_of n (8 * dt (tank s)) ->
  50 <= steps_of n (6 * dt (tank s)) ->
  exists s',
    main_process (S n) s = Finished s' /\
    tank_level s' == 50 /\
    status (tank s') = "Idle".
Proof.
  intros Hcap [H0 Hle] Hdt Hfill Hempty. unfold main_process, fill_to_level.
  destruct (fill_loop_bound n 100 8 (set_status "Filling" s))
    as (s1 & F1 & F2 & _ & F4 & _); try assumption;
    try (cbn; lra).
  pose proof (fill_loop_frame (S n) 100 8 (set_status "Filling" s)) as [D1 D2].
  rewrite F1 in D1, D2 |- *. cbn [state_of] in D1, D2.
  cbn in F4, D1, D2.
  unfold wake_time. cbn [now set_status].
  rewrite Qltb_false by discriminate.
  unfold empty_to_level.
  destruct (empty_loop_reaches_target n 50 6
              (set_status "Emptying" (at_time (now s1 + 4) (set_status "Idle" s1))))
    as (s2 & E1 & E2 & _).
  - cbn. rewrite D1. lra.
  - cbn. rewrite D1. lra.
  - discriminate.
  - unfold tank_level in *. cbn. lra.
  - unfold tank_level in *. cbn. rewrite D2. lra.
  - unfold tank_level in *. cbn. rewrite D1. lra.
  - rewrite E1. exists (set_status "Idle" s2).
    split; [reflexivity|]. split; [exact E2|reflexivity].
Qed.

(** Instances. *)
Definition full_tank : State := mkState 0 (new_tank 1 "Tank1" 100 100) [].

Lemma empty_to_level_reaches_target_witness :
  exists s',
    empty_to_level 10 50 6 full_tank = Finished s' /\
    tank_level s' == 50 /\
    status (tank s') = "Idle".
Proof.
  apply (empty_to_level_reaches_target 9 50 6 full_tank);
    vm_compute; reflexivity || discriminate.
Defined.

Lemma fill_to_level_bound_witness :
  exists s',
    fill_to_level 8 50 8 hourly_tank = Finished s' /\
    50 <= tank_level s' /\
    tank_level s' < 50 + 8 * dt (tank hourly_tank) /\
    tank_level s' <= capacity (container (tank hourly_tank)) /\
    status (tank s') = "Idle".
Proof.
  apply (fill_to_level_bound 7 50 8 hourly_tank);
    vm_compute; reflexivity || discriminate.
Defined.

Lemma fill_to_level_reaches_capacity_witness :
  exists s',
    fill_to_level 14 (capacity (container (tank hourly_tank))) 8 hourly_tank
    = Finished s' /\
    tank_level s' == capacity (container (tank hourly_tank)) /\
    status (tank s') = "Idle".
Proof.
  apply (fill_to_level_reaches_capacity 13 8 hourly_tank);
    vm_compute; reflexivity || discriminate.
Defined.

Lemma fill_to_level_above_capacity_witness :
  exists s',
    fill_to_level 14 120 8 hourly_tank = Failed ValueError s' /\
    tank_level s' == capacity (container (tank hourly_tank)) /\
    status (tank s') = "Filling".
Proof.
  apply (fill_to_level_above_capacity 13 120 8 hourly_tank);
    vm_compute; reflexivity || discriminate.
Defined.

Lemma empty_loop_accounts_witness :
  exists s' ks,
    empty_loop 10 50 6 full_tank = Finished s' /\
    moved s' = moved full_tank ++ ks /\
    now s' == now full_tank + steps_of (length ks) (dt (tank full_tank)) /\
    tank_level s' == tank_level full_tank - sum_moves ks.
Proof.
  destruct (empty_loop 10 50 6 full_tank) as [s'| | |] eqn:E;
    try (vm_compute in E; discriminate E).
  destruct (empty_loop_accounts 10 50 6 full_tank s' E)
    as (ks & K1 & _ & K3 & K4 & _).
  exists s', ks. split; [reflexivity|]. split; [exact K1|].
  split; [exact K3|exact K4].
Defined.

Lemma fill_loop_accounts_witness :
  exists s' ks,
    fill_loop 8 50 8 hourly_tank = Finished s' /\
    moved s' = moved hourly_tank ++ ks /\
    now s' == now hourly_tank + steps_of (length ks) (dt (tank hourly_tank)) /\
    tank_level s' == tank_level hourly_tank + sum_moves ks.
Proof.
  destruct (fill_loop 8 50 8 hourly_tank) as [s'| | |] eqn:E;
    try (vm_compute in E; discriminate E).
  destruct (fill_loop_accounts 8 50 8 hourly_tank s' E)
    as (ks & K1 & _ & K3 & K4 & _).
  exists s', ks. split; [reflexivity|]. split; [exact K1|].
  split; [exact K3|exact K4].
Defined.

Lemma main_process_ends_witness :
  exists s',
    main_process 14 hourly_tank = Finished s' /\
    tank_level s' == 50 /\
    status (tank s') = "Idle".
Proof.
  apply (main_process_ends 13 hourly_tank);
    vm_compute; (reflexivity || discriminate || (split; discriminate)).
Defined.

End ClassySimLaws.
